(** * mcp_server_unipile.http_server: a shallow embedding

    The FastAPI application of [src/mcp_server_unipile/http_server.py]
    modelled as Rocq functions, and the properties of its five tool
    endpoints and of its startup hook.

    Conventions of the embedding:
    - a Python [str] is the list of its Unicode code points;
    - a Python value obtained from JSON (and a value handed back to FastAPI
      for serialisation) is a term of [json]; [None] is [JNull], a [dict]
      is an association list in insertion order;
    - a piece of text that the code hands to a JSON decoder is a [text]:
      either the value it decodes to or the message of the decoding error;
    - a raised exception is a term of [exn]; [str_exn] is Python's [str(e)];
    - outbound HTTP calls are answered by a [network] and recorded in a log,
      so that "one upstream call" and "no upstream call" can be stated;
    - a handler call ends in a [handler_result], what the handler function
      hands to FastAPI (the dict it returned or the [HTTPException] it
      raised); what goes back to the caller is [on_wire] of it, since
      FastAPI encodes the body after the handler has been left. *)

From Stdlib Require Import ZArith NArith String Ascii Bool Lia.
From Stdlib Require Import DecimalString List Permutation.
Import ListNotations.

Set Warnings "-register-all".

Local Open Scope Z_scope.
Local Open Scope list_scope.

(** ** Python strings *)

Definition pystr := list N.

(** An ASCII literal as a Python string. *)
Definition py (s : string) : pystr :=
  map N_of_ascii (list_ascii_of_string s).

Fixpoint pystr_eqb (a b : pystr) : bool :=
  match a, b with
  | [], [] => true
  | x :: a', y :: b' => N.eqb x y && pystr_eqb a' b'
  | _, _ => false
  end.

(** [str.isspace] on one code point (CPython's [_PyUnicode_IsWhitespace]);
    this is the set that [str.strip()] without arguments removes. *)
Definition isspace (c : N) : bool :=
  ((0x09 <=? c) && (c <=? 0x0D) || (0x1C <=? c) && (c <=? 0x20)
   || (c =? 0x85) || (c =? 0xA0) || (c =? 0x1680)
   || (0x2000 <=? c) && (c <=? 0x200A)
   || (c =? 0x2028) || (c =? 0x2029) || (c =? 0x202F) || (c =? 0x205F)
   || (c =? 0x3000))%N.

Fixpoint lstrip (s : pystr) : pystr :=
  match s with
  | [] => []
  | c :: s' => if isspace c then lstrip s' else s
  end.

Definition rstrip (s : pystr) : pystr := rev (lstrip (rev s)).

(** [s.strip()] *)
Definition strip (s : pystr) : pystr := rstrip (lstrip s).

(** [str(n)] for a Python [int]. *)
Definition str_int (z : Z) : pystr :=
  py (NilEmpty.string_of_int (Z.to_int z)).

(** [str(x)] inside an f-string for a value that is a [str] or [None]. *)
Definition format_opt (o : option pystr) : pystr :=
  match o with
  | Some s => s
  | None => py "None"
  end.

(** ** JSON values, Python view *)

Inductive json : Type :=
| JNull
| JBool (b : bool)
| JInt (z : Z)
| JFloat (repr : pystr)   (* a float, named by its Python [repr]; the
                             non-finite ones are [nan], [inf] and [-inf] *)
| JStr (s : pystr)
| JArr (l : list json)
| JObj (d : list (pystr * json)).

Definition dict := list (pystr * json).

(** [type(v).__name__] *)
Definition type_name (v : json) : pystr :=
  match v with
  | JNull => py "NoneType"
  | JBool _ => py "bool"
  | JInt _ => py "int"
  | JFloat _ => py "float"
  | JStr _ => py "str"
  | JArr _ => py "list"
  | JObj _ => py "dict"
  end.

Fixpoint lookup (k : pystr) (d : dict) : option json :=
  match d with
  | [] => None
  | (k', v) :: d' => if pystr_eqb k k' then Some v else lookup k d'
  end.

Definition keys (d : dict) : list pystr := map fst d.

(** [d.get(k, default)] on a [dict]. *)
Definition dict_get (d : dict) (k : pystr) (default : json) : json :=
  match lookup k d with
  | Some v => v
  | None => default
  end.

(** Two dicts are equal in Python when they bind the same keys to the same
    values, whatever the insertion order. *)
Definition dict_eq (d1 d2 : dict) : Prop :=
  forall k, lookup k d1 = lookup k d2.

(** The [repr] of a float that is not finite. Python's decoder produces
    such floats from the tokens [NaN], [Infinity], [-Infinity] and from
    numerals too large for a float. *)
Definition nonfinite (r : pystr) : bool :=
  pystr_eqb r (py "nan") || pystr_eqb r (py "inf") || pystr_eqb r (py "-inf").

(** A code point in the surrogate range; a string holding one cannot be
    encoded as UTF-8. *)
Definition is_surrogate (c : N) : bool := ((0xD800 <=? c) && (c <=? 0xDFFF))%N.

(** [s.encode("utf-8")] does not raise. *)
Definition utf8_encodable (s : pystr) : bool :=
  forallb (fun c => negb (is_surrogate c)) s.

(** The values that Starlette's [JSONResponse.render] can encode:
    [json.dumps(content, ensure_ascii=False, allow_nan=False, ...)
    .encode("utf-8")] raises [ValueError] on a non-finite float and
    [UnicodeEncodeError] on a string (or key) with a lone surrogate. *)
Fixpoint encodable (v : json) : bool :=
  match v with
  | JFloat r => negb (nonfinite r)
  | JStr s => utf8_encodable s
  | JArr l => forallb encodable l
  | JObj d => forallb (fun kv => utf8_encodable (fst kv) && encodable (snd kv)) d
  | _ => true
  end.

(** *** [json.dumps] with its default arguments *)

(** A float as [json.dumps] prints it: its [repr], or for a non-finite
    float the token [NaN], [Infinity] or [-Infinity]. *)
Definition float_text (r : pystr) : pystr :=
  if pystr_eqb r (py "nan") then py "NaN"
  else if pystr_eqb r (py "inf") then py "Infinity"
  else if pystr_eqb r (py "-inf") then py "-Infinity"
  else r.

Definition hexdigit (n : N) : N :=
  (if n <? 10 then 48 + n else 87 + n)%N.

(** ['\\u{0:04x}'.format(n)] *)
Definition u_escape (n : N) : pystr :=
  [92; 117;
   hexdigit ((n / 4096) mod 16); hexdigit ((n / 256) mod 16);
   hexdigit ((n / 16) mod 16); hexdigit (n mod 16)]%N.

(** One character of [json.encoder.py_encode_basestring_ascii]. *)
Definition escape_char (c : N) : pystr :=
  (if (0x20 <=? c) && (c <=? 0x7E) && negb (c =? 34) && negb (c =? 92)
   then [c]
   else if c =? 34 then [92; 34]
   else if c =? 92 then [92; 92]
   else if c =? 8 then [92; 98]
   else if c =? 12 then [92; 102]
   else if c =? 10 then [92; 110]
   else if c =? 13 then [92; 114]
   else if c =? 9 then [92; 116]
   else if c <? 0x10000 then u_escape c
   else
     let n := c - 0x10000 in
     u_escape (N.lor 0xD800 (N.land (N.shiftr n 10) 0x3FF))
     ++ u_escape (N.lor 0xDC00 (N.land n 0x3FF)))%N.

Definition encode_basestring_ascii (s : pystr) : pystr :=
  [34%N] ++ flat_map escape_char s ++ [34%N].

Fixpoint json_dumps (v : json) : pystr :=
  match v with
  | JNull => py "null"
  | JBool true => py "true"
  | JBool false => py "false"
  | JInt z => str_int z
  | JFloat r => float_text r
  | JStr s => encode_basestring_ascii s
  | JArr l =>
      py "["
      ++ (fix items (l : list json) : pystr :=
            match l with
            | [] => []
            | x :: l' =>
                match l' with
                | [] => json_dumps x
                | _ :: _ => json_dumps x ++ py ", " ++ items l'
                end
            end) l
      ++ py "]"
  | JObj d =>
      py "{"
      ++ (fix items (d : list (pystr * json)) : pystr :=
            match d with
            | [] => []
            | (k, x) :: d' =>
                match d' with
                | [] => encode_basestring_ascii k ++ py ": " ++ json_dumps x
                | _ :: _ =>
                    encode_basestring_ascii k ++ py ": " ++ json_dumps x
                    ++ py ", " ++ items d'
                end
            end) d
      ++ py "}"
  end.

(** A text handed to a JSON decoder ([json.loads], [Request.json],
    [Response.json]): what it decodes to, or the decoder's error message. *)
Inductive text : Type :=
| Json (v : json)
| NotJson (err : pystr).

(** ** Exceptions *)

Inductive exn : Type :=
| AttributeError (tyname attr : pystr)
| TypeError (msg : pystr)
| JSONDecodeError (msg : pystr)
| HTTPError (status : Z) (kind reason url : pystr)
| RuntimeError (msg : pystr)
| OtherException (msg : pystr).   (* network faults, anything else *)

(** [str(e)] *)
Definition str_exn (e : exn) : pystr :=
  match e with
  | AttributeError t a =>
      py "'" ++ t ++ py "' object has no attribute '" ++ a ++ py "'"
  | TypeError m => m
  | JSONDecodeError m => m
  | HTTPError st kind reason url =>
      str_int st ++ py " " ++ kind ++ py ": " ++ reason
      ++ py " for url: " ++ url
  | RuntimeError m => m
  | OtherException m => m
  end.

Inductive result (A : Type) : Type :=
| Ok (a : A)
| Raise (e : exn).
Arguments Ok {A} a.
Arguments Raise {A} e.

(** ** Outbound HTTP: the [requests] library *)

Inductive http_method : Type := GET | POST.

(** An uploaded file part: [UploadFile.filename] and the bytes of
    [UploadFile.file]. *)
Record UploadFile : Type := {
  filename : option pystr;
  file : list Byte.byte
}.

(** The arguments of one [requests.get] / [requests.post] call. A keyword
    argument that is [None] in Python is [None] here ([requests] treats a
    [None] keyword as not given). *)
Record request_args : Type := {
  method : http_method;
  url : pystr;
  headers : list (pystr * option pystr);
  params : list (pystr * pystr);
  data : option (list (pystr * pystr));
  json_kw : option json;
  files : option (list (pystr * (option pystr * list Byte.byte)))
}.

Record Response : Type := {
  status : Z;
  reason : pystr;
  response_url : pystr;
  response_text : text
}.

(** What a [requests] call comes to: an answer from upstream, or an
    exception raised by the call itself (connection refused, DNS failure,
    timeout, or, before anything is sent, arguments that [requests] cannot
    encode). *)
Inductive net_outcome : Type :=
| Responds (r : Response)
| Fails (e : exn).

Definition network := request_args -> net_outcome.

(** *** Computations that may raise and that log their upstream calls *)

Definition M (A : Type) : Type :=
  network -> list request_args -> result A * list request_args.

Definition ret {A} (a : A) : M A := fun _ log => (Ok a, log).

Definition raise {A} (e : exn) : M A := fun _ log => (Raise e, log).

Definition bind {A B} (m : M A) (k : A -> M B) : M B :=
  fun net log =>
    match m net log with
    | (Ok a, log') => k a net log'
    | (Raise e, log') => (Raise e, log')
    end.

Notation "x <- m ;; k" := (bind m (fun x => k))
  (at level 61, m at next level, right associativity).
Notation "m ;;; k" := (bind m (fun _ => k))
  (at level 61, right associativity).

Definition lift {A} (r : result A) : M A := fun _ log => (r, log).

(** [requests.request(method, url, ...)]: one call, logged. *)
Definition requests_call (args : request_args) : M Response :=
  fun net log =>
    match net args with
    | Responds r => (Ok r, log ++ [args])
    | Fails e => (Raise e, log ++ [args])
    end.

(** [Response.raise_for_status()]: raises for 4xx and 5xx only. *)
Definition raise_for_status (r : Response) : M unit :=
  if (400 <=? status r) && (status r <? 500) then
    raise (HTTPError (status r) (py "Client Error") (reason r) (response_url r))
  else if (500 <=? status r) && (status r <? 600) then
    raise (HTTPError (status r) (py "Server Error") (reason r) (response_url r))
  else ret tt.

(** [json.loads(t)], [await request.json()], [response.json()] *)
Definition json_loads (t : text) : result json :=
  match t with
  | Json v => Ok v
  | NotJson err => Raise (JSONDecodeError err)
  end.

(** ** Python operations used by the handlers *)

(** [v.get(k, default)]: only a [dict] has a [get] method. *)
Definition py_get (v : json) (k : pystr) (default : json) : result json :=
  match v with
  | JObj d => Ok (dict_get d k default)
  | _ => Raise (AttributeError (type_name v) (py "get"))
  end.

(** [v.strip()]: only a [str] has a [strip] method (among JSON values). *)
Definition py_strip (v : json) : result json :=
  match v with
  | JStr s => Ok (JStr (strip s))
  | _ => Raise (AttributeError (type_name v) (py "strip"))
  end.

(** [iter(v)], fully unrolled: a list yields its items, a dict its keys,
    a string its characters; nothing else is iterable. *)
Definition py_iter (v : json) : result (list json) :=
  match v with
  | JArr l => Ok l
  | JObj d => Ok (map (fun kv => JStr (fst kv)) d)
  | JStr s => Ok (map (fun c => JStr [c]) s)
  | _ => Raise (TypeError (py "'" ++ type_name v ++ py "' object is not iterable"))
  end.

Definition rbind {A B} (r : result A) (k : A -> result B) : result B :=
  match r with
  | Ok a => k a
  | Raise e => Raise e
  end.

(** A list comprehension [[f(x) for x in l]]: left to right, the first
    exception aborts it. *)
Fixpoint comprehension {A B} (f : A -> result B) (l : list A) : result (list B) :=
  match l with
  | [] => Ok []
  | x :: l' =>
      rbind (f x) (fun y => rbind (comprehension f l') (fun ys => Ok (y :: ys)))
  end.

Notation "'let!' x ':=' r 'in' k" := (rbind r (fun x => k))
  (at level 10, x name, r at level 100, k at level 200).

(** ** The application *)

(** What a handler function hands to FastAPI when it is left: the status
    and the content of the response that FastAPI is to build. The content
    is not encoded yet; see [on_wire]. *)
Record handler_result : Type := {
  status_code : Z;
  content : json
}.

(** The handler is left by [raise HTTPException(status_code=c, detail=d)]:
    FastAPI's default handler is to answer status [c] with the content
    [{"detail": d}]. *)
Definition HTTPException (c : Z) (detail : pystr) : handler_result :=
  {| status_code := c; content := JObj [(py "detail", JStr detail)] |}.

(** The handler is left by [return v]: FastAPI is to answer status 200 with
    the content [v]. *)
Definition returns (v : json) : handler_result :=
  {| status_code := 200; content := v |}.

Definition handler : Type := network -> handler_result * list request_args.

(** The pattern shared by the five handlers:
    [try: <body> except Exception as e: raise HTTPException(500, str(e))],
    where the last statement of the body is the [return]. This is the
    handler function up to the point where it is left; the encoding of
    what it hands over happens afterwards, in [on_wire], outside the
    [try]. (The [logger.error] calls only write to the log and are left
    out.) *)
Definition try_except (body : M json) : handler :=
  fun net =>
    match body net [] with
    | (Ok v, log) => (returns v, log)
    | (Raise e, log) => (HTTPException 500 (str_exn e), log)
    end.

(** What the caller receives. *)
Inductive wire_response : Type :=
| JSONResponse (status : Z) (body : json)        (* application/json *)
| PlainTextResponse (status : Z) (body : pystr). (* text/plain *)

(** FastAPI builds a [JSONResponse] from what the handler handed over, for
    a returned dict as for an [HTTPException]. Encoding the content may
    raise; nothing catches that exception, and Starlette's server-error
    middleware answers 500 with the plain text [Internal Server Error]. *)
Definition on_wire (r : handler_result) : wire_response :=
  if encodable (content r) then JSONResponse (status_code r) (content r)
  else PlainTextResponse 500 (py "Internal Server Error").

Definition wire_status (w : wire_response) : Z :=
  match w with
  | JSONResponse st _ => st
  | PlainTextResponse st _ => st
  end.

(** A handler call as the caller sees it. *)
Definition respond (h : handler) : network -> wire_response * list request_args :=
  fun net => let (r, log) := h net in (on_wire r, log).

(** The interface of [.server.UnipileWrapper] that the handlers use; every
    method returns JSON text. *)
Record UnipileWrapper : Type := {
  unipile_get_accounts : M text;
  unipile_get_all_messages : pystr -> Z -> M text;
  unipile_get_emails : pystr -> Z -> M text
}.

(** The module-level globals. *)
Record globals : Type := {
  UNIPILE_DSN : option pystr;
  UNIPILE_API_KEY : option pystr;
  unipile : option UnipileWrapper
}.

Record EmailRequest : Type := {
  account_id : pystr;
  subject : pystr;
  body : pystr;
  to : list json;
  cc : option (list json);
  bcc : option (list json)
}.

(** [unipile.<name>(...)]: the global is [None] until startup has run. *)
Definition unipile_method {A} (g : globals) (name : string)
    (call : UnipileWrapper -> M A) : M A :=
  match unipile g with
  | Some w => call w
  | None => raise (AttributeError (py "NoneType") (py name))
  end.

(** Each handler is [try_except] applied to its [try] block, named
    [<handler>_try] here. *)

Definition get_accounts_try (g : globals) : M json :=
  t <- unipile_method g "get_accounts" unipile_get_accounts ;;
  data <- lift (json_loads t) ;;
  ret (JObj [(py "data", data)]).

Definition get_accounts (g : globals) : handler :=
  try_except (get_accounts_try g).

(** [f"https://{UNIPILE_DSN}/api/v1/emails"] *)
Definition emails_url (g : globals) : pystr :=
  py "https://" ++ format_opt (UNIPILE_DSN g) ++ py "/api/v1/emails".

(** The arguments of the [requests.post] call of [reply_email]. *)
Definition reply_email_post (g : globals) (request : EmailRequest)
    (reply_to : pystr) (attachment : option UploadFile) : request_args :=
  let url := emails_url g in
  let headers :=
    [(py "X-API-KEY", UNIPILE_API_KEY g);
     (py "accept", Some (py "application/json"))] in
  let data :=
    [(py "account_id", account_id request);
     (py "subject", subject request);
     (py "body", body request);
     (py "to", json_dumps (JArr (to request)));
     (py "reply_to", reply_to)] in
  let files :=
    match attachment with
    | Some a => Some [(py "attachments", (filename a, file a))]
    | None => None
    end in
  {| method := POST; url := url; headers := headers; params := [];
     data := Some data; json_kw := None; files := files |}.

Definition reply_email_try (g : globals) (request : EmailRequest)
    (reply_to : pystr) (attachment : option UploadFile) : M json :=
  response <- requests_call (reply_email_post g request reply_to attachment) ;;
  raise_for_status response ;;;
  ret (JObj [(py "message", JStr (py "Reply sent successfully"))]).

Definition reply_email (g : globals) (request : EmailRequest)
    (reply_to : pystr) (attachment : option UploadFile) : handler :=
  try_except (reply_email_try g request reply_to attachment).

(** A Python value passed as a keyword argument: [None] is "not given". *)
Definition kw (v : json) : option json :=
  match v with
  | JNull => None
  | _ => Some v
  end.

(** The arguments of the [requests.post] call of [send_email]. *)
Definition send_email_post (g : globals) (payload : json) : request_args :=
  let url := emails_url g in
  let headers :=
    [(py "X-API-KEY", UNIPILE_API_KEY g);
     (py "accept", Some (py "application/json"));
     (py "Content-Type", Some (py "application/json"))] in
  {| method := POST; url := url; headers := headers; params := [];
     data := None; json_kw := kw payload; files := None |}.

Definition send_email_try (g : globals) (request : text) : M json :=
  payload <- lift (json_loads request) ;;
  response <- requests_call (send_email_post g payload) ;;
  raise_for_status response ;;;
  j <- lift (json_loads (response_text response)) ;;
  ret (JObj [(py "message", JStr (py "Email sent successfully"));
             (py "response", j)]).

Definition send_email (g : globals) (request : text) : handler :=
  try_except (send_email_try g request).

Definition get_recent_messages_try (g : globals) (account_id : pystr)
    (batch_size : Z) : M json :=
  t <- unipile_method g "get_all_messages"
         (fun w => unipile_get_all_messages w account_id batch_size) ;;
  data <- lift (json_loads t) ;;
  ret (JObj [(py "data", data)]).

Definition get_recent_messages (g : globals) (account_id : pystr)
    (batch_size : Z) : handler :=
  try_except (get_recent_messages_try g account_id batch_size).

(** The dict display inside the comprehension of [get_emails]: the Email
    Summary of one upstream record. Items are evaluated top to bottom. *)
Definition email_summary (email : json) : result json :=
  let! id := py_get email (py "id") JNull in
  let! subject := py_get email (py "subject") JNull in
  let! date := py_get email (py "date") JNull in
  let! attendee := py_get email (py "from_attendee") (JObj []) in
  let! from := py_get attendee (py "email") JNull in
  let! markdown := py_get email (py "body_markdown") (JStr []) in
  let! body := py_strip markdown in
  Ok (JObj [(py "id", id);
            (py "subject", subject);
            (py "date", date);
            (py "from", from);
            (py "body", body)]).

(** [[ {...} for email in raw_data ]] *)
Definition summaries (raw_data : json) : result (list json) :=
  let! items := py_iter raw_data in
  comprehension email_summary items.

Definition get_emails_try (g : globals) (account_id : pystr) (limit : Z)
    : M json :=
  t <- unipile_method g "get_emails"
         (fun w => unipile_get_emails w account_id limit) ;;
  raw_data <- lift (json_loads t) ;;
  emails <- lift (summaries raw_data) ;;
  ret (JObj [(py "emails", JArr emails)]).

Definition get_emails (g : globals) (account_id : pystr) (limit : Z) : handler :=
  try_except (get_emails_try g account_id limit).

(** A call of one of the five handlers with its bound arguments. *)
Inductive tool_call : Type :=
| call_get_accounts
| call_reply_email (request : EmailRequest) (reply_to : pystr)
    (attachment : option UploadFile)
| call_send_email (request : text)
| call_get_recent_messages (account_id : pystr) (batch_size : Z)
| call_get_emails (account_id : pystr) (limit : Z).

Definition try_block (g : globals) (c : tool_call) : M json :=
  match c with
  | call_get_accounts => get_accounts_try g
  | call_reply_email request reply_to attachment =>
      reply_email_try g request reply_to attachment
  | call_send_email request => send_email_try g request
  | call_get_recent_messages account_id batch_size =>
      get_recent_messages_try g account_id batch_size
  | call_get_emails account_id limit => get_emails_try g account_id limit
  end.

Definition handle (g : globals) (c : tool_call) : handler :=
  match c with
  | call_get_accounts => get_accounts g
  | call_reply_email request reply_to attachment =>
      reply_email g request reply_to attachment
  | call_send_email request => send_email g request
  | call_get_recent_messages account_id batch_size =>
      get_recent_messages g account_id batch_size
  | call_get_emails account_id limit => get_emails g account_id limit
  end.

(** *** Parameter binding

    FastAPI binds the declared parameters before it calls the handler. A
    declared parameter without a default is required; when one cannot be
    bound the request is answered by FastAPI's validation error (status
    422) and the handler is not called. The application installs no
    exception handler of its own, so this default applies. Query
    parameters arrive here already typed; an absent one is [None]. *)

Inductive outcome : Type :=
| Rejected (missing : list pystr)   (* 422, naming the parameters at fault *)
| Handled (r : wire_response).

Definition outcome_status (o : outcome) : Z :=
  match o with
  | Rejected _ => 422
  | Handled r => wire_status r
  end.

Definition endpoint : Type := network -> outcome * list request_args.

(** The handler is called and what it hands over is sent. *)
Definition call_handler (h : handler) : endpoint :=
  fun net => let (r, log) := respond h net in (Handled r, log).

Definition reject (missing : list pystr) : endpoint :=
  fun _ => (Rejected missing, []).

(** The fields of the JSON document that a reply request carries for the
    body model [EmailRequest]. *)
Record raw_EmailRequest : Type := {
  raw_account_id : option pystr;
  raw_subject : option pystr;
  raw_body : option pystr;
  raw_to : option (list json);
  raw_cc : option (list json);
  raw_bcc : option (list json)
}.

Definition missing_of {A} (name : string) (o : option A) : list pystr :=
  match o with
  | Some _ => []
  | None => [py name]
  end.

Definition default {A} (d : A) (o : option A) : A :=
  match o with
  | Some a => a
  | None => d
  end.

Inductive request : Type :=
| unipile_get_accounts_req
| unipile_reply_email_req (request : raw_EmailRequest)
    (reply_to : option pystr) (attachment : option UploadFile)
| unipile_send_email_req (request : text)
| unipile_get_recent_messages_req (account_id : option pystr)
    (batch_size : option Z)
| unipile_get_emails_req (account_id : option pystr) (limit : option Z).

(** The route table with the signatures of the five handlers.

    [reply_email] declares the body model [request: EmailRequest] next to
    the file parameter [attachment: UploadFile = File(None)]. With a file
    parameter among the body parameters FastAPI reads the request body as
    a form and looks for a form field named [request]; the JSON document
    does not provide it as a model, so [request] cannot be bound, whatever
    the document holds: every reply request is refused, and the handler is
    reached by direct calls only. *)
Definition dispatch (g : globals) (req : request) : endpoint :=
  match req with
  | unipile_get_accounts_req => call_handler (get_accounts g)
  | unipile_reply_email_req raw reply_to attachment =>
      reject (py "request" :: missing_of "reply_to" reply_to)
  | unipile_send_email_req request => call_handler (send_email g request)
  | unipile_get_recent_messages_req account_id batch_size =>
      match account_id with
      | Some account_id =>
          call_handler (get_recent_messages g account_id (default 20 batch_size))
      | None => reject [py "account_id"]
      end
  | unipile_get_emails_req account_id limit =>
      match account_id with
      | Some account_id =>
          call_handler (get_emails g account_id (default 10 limit))
      | None => reject [py "account_id"]
      end
  end.

(** *** Startup *)

(** [os.getenv] *)
Definition environ : Type := pystr -> option pystr.

(** The globals as the module body leaves them at import time. *)
Definition module_globals (env : environ) : globals :=
  {| UNIPILE_DSN := env (py "UNIPILE_DSN");
     UNIPILE_API_KEY := env (py "UNIPILE_API_KEY");
     unipile := None |}.

(** [not x] for [x] a [str] or [None]. *)
Definition py_not (x : option pystr) : bool :=
  match x with
  | None => true
  | Some [] => true
  | Some (_ :: _) => false
  end.

(** The startup half of [lifespan] (everything before [yield]). [new] is
    the constructor [UnipileWrapper(dsn=..., api_key=...)]; the second
    component of the result lists the constructor calls made. *)
Definition lifespan (new : option pystr -> option pystr -> UnipileWrapper)
    (env : environ) (g : globals)
    : result (globals * list (option pystr * option pystr)) :=
  let dsn := env (py "UNIPILE_DSN") in
  let api_key := env (py "UNIPILE_API_KEY") in
  if py_not dsn || py_not api_key then
    Raise (RuntimeError
      (py "Missing UNIPILE_DSN or UNIPILE_API_KEY environment variables"))
  else
    Ok ({| UNIPILE_DSN := UNIPILE_DSN g;
           UNIPILE_API_KEY := UNIPILE_API_KEY g;
           unipile := Some (new dsn api_key) |},
        [(dsn, api_key)]).

(** A run of the server ([uvicorn.run(app, ...)]): the lifespan startup
    comes first; when it raises, the server exits without serving; else
    the requests are dispatched with the globals that startup left. *)
Inductive server_run : Type :=
| StartupFailed (e : exn)
| Serving (constructed : list (option pystr * option pystr))
    (responses : list outcome).

Definition run (new : option pystr -> option pystr -> UnipileWrapper)
    (env : environ) (net : network) (reqs : list request) : server_run :=
  match lifespan new env (module_globals env) with
  | Raise e => StartupFailed e
  | Ok (g, constructed) =>
      Serving constructed (map (fun req => fst (dispatch g req net)) reqs)
  end.

(** *** The upstream wrapper *)

(** Modelled from the spec: the class [UnipileWrapper] of the module
    [.server], which [http_server.py] imports and which is not among the
    sources. Spec 4.1 (Upstream Client): exactly one HTTPS call to
    [https://{configured-host}{path}] with the API-key header and an
    [accept: application/json] header; any non-2xx status is a failure
    carrying the upstream status and body. Spec 4.2 and 4.3: the listing
    operations are scoped to the account and constrained by the batch size
    or limit, and the upstream JSON is passed through. The rendering of the
    failure as a message is not fixed by the spec and is the parameter
    [describe]; the resource names come from spec 6. *)
Definition upstream_get (describe : Z -> text -> pystr)
    (dsn api_key : option pystr) (path : string)
    (params : list (pystr * pystr)) : M text :=
  r <- requests_call
    {| method := GET;
       url := py "https://" ++ format_opt dsn ++ py path;
       headers := [(py "X-API-KEY", api_key);
                   (py "accept", Some (py "application/json"))];
       params := params; data := None; json_kw := None; files := None |} ;;
  if (200 <=? status r) && (status r <? 300) then ret (response_text r)
  else raise (OtherException (describe (status r) (response_text r))).

(** Modelled from the spec: the bound of spec 8 on the two listings, "a
    list whose length is at most the requested batch size/limit", also
    when upstream sends more (scenario: limit 2, upstream returns 3
    records, at most 2 come back). The handlers of [http_server.py] hand
    on what the wrapper returns, so the bound is the wrapper's: of an
    upstream list it keeps the first [limit] records; any other upstream
    value is passed through (spec 4.3). *)
Definition capped (limit : Z) (t : text) : text :=
  match t with
  | Json (JArr l) => Json (JArr (firstn (Z.to_nat limit) l))
  | _ => t
  end.

(** Modelled from the spec: the three methods of [UnipileWrapper] that the
    handlers call, each one upstream GET on its resource (spec 4.2, 6);
    the two listings take the batch size or limit, send it upstream and
    keep to it (spec 4.2, 8). *)
Definition spec_UnipileWrapper (describe : Z -> text -> pystr)
    (dsn api_key : option pystr) : UnipileWrapper :=
  {| unipile_get_accounts :=
       upstream_get describe dsn api_key "/api/v1/accounts" [];
     unipile_get_all_messages := fun account_id limit =>
       t <- upstream_get describe dsn api_key "/api/v1/messages"
              [(py "account_id", account_id); (py "limit", str_int limit)] ;;
       ret (capped limit t);
     unipile_get_emails := fun account_id limit =>
       t <- upstream_get describe dsn api_key "/api/v1/emails"
              [(py "account_id", account_id); (py "limit", str_int limit)] ;;
       ret (capped limit t) |}.

(** ** Vocabulary of the properties *)

(** The keys of an Email Summary, in the order of the dict display. *)
Definition summary_keys : list pystr :=
  [py "id"; py "subject"; py "date"; py "from"; py "body"].

(** No whitespace at either end. *)
Definition trimmed (s : pystr) : bool :=
  match s with
  | [] => true
  | c :: _ => negb (isspace c)
  end
  && match rev s with
     | [] => true
     | c :: _ => negb (isspace c)
     end.

(** An upstream email record whose optional parts, when present, have the
    type the projection calls a method on: [from_attendee] an object,
    [body_markdown] a string. *)
Definition well_typed_record (r : json) : bool :=
  match r with
  | JObj d =>
      match lookup (py "from_attendee") d with
      | None | Some (JObj _) => true
      | Some _ => false
      end
      && match lookup (py "body_markdown") d with
         | None | Some (JStr _) => true
         | Some _ => false
         end
  | _ => false
  end.

(** The sender and the body that the projection reads from a record. *)
Definition sender_of (d : dict) : json :=
  match lookup (py "from_attendee") d with
  | Some (JObj a) => dict_get a (py "email") JNull
  | _ => JNull
  end.

Definition markdown_of (d : dict) : pystr :=
  match lookup (py "body_markdown") d with
  | Some (JStr s) => s
  | _ => []
  end.

(** *** Concrete inputs used by the examples *)

Definition sample_globals : globals :=
  {| UNIPILE_DSN := Some (py "api1.unipile.com:13111");
     UNIPILE_API_KEY := Some (py "secret");
     unipile := None |}.

(** A network that gives the same answer to every call. *)
Definition always (r : Response) : network := fun _ => Responds r.

Definition answer (st : Z) (why : string) (t : text) : Response :=
  {| status := st; reason := py why;
     response_url := py "https://api1.unipile.com:13111/api/v1/emails";
     response_text := t |}.

Definition sample_request : EmailRequest :=
  {| account_id := py "a1"; subject := py "Hi"; body := py "Test";
     to := [JStr (py "x@y.com")]; cc := None; bcc := None |}.

Definition sample_payload : dict :=
  [(py "account_id", JStr (py "a1")); (py "subject", JStr (py "Hi"));
   (py "body", JStr (py "Test")); (py "to", JArr [JStr (py "x@y.com")])].

Definition sample_record : json :=
  JObj [(py "id", JStr (py "e1"));
        (py "subject", JStr (py "Hello"));
        (py "date", JStr (py "2024-05-01T10:00:00Z"));
        (py "from_attendee", JObj [(py "email", JStr (py "bob@example.com"));
                                   (py "display_name", JStr (py "Bob"))]);
        (py "body_markdown", JStr (py "  Dear all,  "));
        (py "folders", JArr [JStr (py "INBOX")])].

Definition sample_summary : dict :=
  [(py "id", JStr (py "e1"));
   (py "subject", JStr (py "Hello"));
   (py "date", JStr (py "2024-05-01T10:00:00Z"));
   (py "from", JStr (py "bob@example.com"));
   (py "body", JStr (py "Dear all,"))].

Definition sample_wrapper : UnipileWrapper :=
  spec_UnipileWrapper (fun _ _ => py "upstream error")
    (Some (py "api1.unipile.com:13111")) (Some (py "secret")).

Definition sample_env (dsn api_key : option pystr) : environ :=
  fun name =>
    if pystr_eqb name (py "UNIPILE_DSN") then dsn
    else if pystr_eqb name (py "UNIPILE_API_KEY") then api_key
    else None.

(** Globals after a successful startup, with the wrapper above. *)
Definition serving_globals : globals :=
  {| UNIPILE_DSN := Some (py "api1.unipile.com:13111");
     UNIPILE_API_KEY := Some (py "secret");
     unipile := Some sample_wrapper |}.

(** A wrapper whose methods return a given text without calling out. *)
Definition canned_wrapper (t : text) : UnipileWrapper :=
  {| unipile_get_accounts := ret t;
     unipile_get_all_messages := fun _ _ => ret t;
     unipile_get_emails := fun _ _ => ret t |}.

Definition canned_globals (t : text) : globals :=
  {| UNIPILE_DSN := Some (py "api1.unipile.com:13111");
     UNIPILE_API_KEY := Some (py "secret");
     unipile := Some (canned_wrapper t) |}.

(** The summary that a second projection makes of a summary. *)
Definition resummary (d : dict) : dict :=
  [(py "id", dict_get d (py "id") JNull);
   (py "subject", dict_get d (py "subject") JNull);
   (py "date", dict_get d (py "date") JNull);
   (py "from", JNull);
   (py "body", JStr [])].

(** The summary of a record with well-typed parts. *)
Definition summary_of (d : dict) : dict :=
  [(py "id", dict_get d (py "id") JNull);
   (py "subject", dict_get d (py "subject") JNull);
   (py "date", dict_get d (py "date") JNull);
   (py "from", sender_of d);
   (py "body", JStr (strip (markdown_of d)))].

(** The keys of the dict that each handler returns on success. *)
Definition success_keys (c : tool_call) : list pystr :=
  match c with
  | call_get_accounts => [py "data"]
  | call_reply_email _ _ _ => [py "message"]
  | call_send_email _ => [py "message"; py "response"]
  | call_get_recent_messages _ _ => [py "data"]
  | call_get_emails _ _ => [py "emails"]
  end.

(** The upstream keys that the projection of [get_emails] reads. *)
Definition upstream_fields : list pystr :=
  [py "id"; py "subject"; py "date"; py "from_attendee"; py "body_markdown"].

(** Printable ASCII, the range that [json.dumps] leaves unescaped. *)
Definition printable (c : N) : bool := ((0x20 <=? c) && (c <=? 0x7E))%N.

(** Every float inside the value is named by an ASCII [repr] (as every
    [repr] of a Python float is). *)
Fixpoint ascii_floats (v : json) : bool :=
  match v with
  | JFloat r => forallb printable r
  | JArr l => forallb ascii_floats l
  | JObj d => forallb (fun kv => ascii_floats (snd kv)) d
  | _ => true
  end.

(** The upstream calls that answering a request adds to the log when the
    request body is [request]: [send_email] posts iff the body decodes. *)
Definition send_email_calls (g : globals) (request : text) : list request_args :=
  match request with
  | Json payload => [send_email_post g payload]
  | NotJson _ => []
  end.

(** The value given for a header name in a [headers] dict. *)
Fixpoint lookup_header (name : pystr) (hs : list (pystr * option pystr))
    : option (option pystr) :=
  match hs with
  | [] => None
  | (k, v) :: hs' => if pystr_eqb name k then Some v else lookup_header name hs'
  end.

(** *** The body that [requests] sends

    [PreparedRequest.prepare_body]: with a non-empty [files] the body is
    [multipart/form-data] (the [data] fields and the file parts); else with
    a non-empty [data] dict it is [application/x-www-form-urlencoded]; else
    with a [json] argument it is [application/json]. *)
Inductive body_encoding : Type :=
| multipart_form_data
| form_urlencoded
| application_json
| no_body.

Definition body_encoding_of (a : request_args) : body_encoding :=
  match files a with
  | Some (_ :: _) => multipart_form_data
  | _ =>
      match data a with
      | Some (_ :: _) => form_urlencoded
      | _ =>
          match json_kw a with
          | Some _ => application_json
          | None => no_body
          end
      end
  end.

(** *** JSON texts

    What it is for a text to be the JSON encoding of a value, after the
    grammar of RFC 8259, independently of [json_dumps]. *)

(** Insignificant whitespace (RFC 8259, section 2). *)
Definition is_ws (c : N) : bool :=
  ((c =? 0x20) || (c =? 0x09) || (c =? 0x0A) || (c =? 0x0D))%N.

(** The hexadecimal digits, by value. *)
Definition hex_digits : list N := py "0123456789abcdef".

(** [\uXXXX]: a backslash, [u] and four hexadecimal digits, with the
    value of the four digits. *)
Inductive u_text : N -> pystr -> Prop :=
| u_text_digits (d3 d2 d1 d0 h3 h2 h1 h0 : N) :
    nth_error hex_digits (N.to_nat d3) = Some h3 ->
    nth_error hex_digits (N.to_nat d2) = Some h2 ->
    nth_error hex_digits (N.to_nat d1) = Some h1 ->
    nth_error hex_digits (N.to_nat d0) = Some h0 ->
    u_text (4096 * d3 + 256 * d2 + 16 * d1 + d0)%N [92; 117; h3; h2; h1; h0]%N.

(** The two-character escapes (RFC 8259, section 7): the character and
    the letter that stands for it after the backslash. *)
Definition short_escapes : list (N * N) :=
  [(0x22, 0x22); (0x5C, 0x5C); (0x2F, 0x2F); (0x08, 0x62); (0x0C, 0x66);
   (0x0A, 0x6E); (0x0D, 0x72); (0x09, 0x74)]%N.

(** The ways to write one character of a string: itself (unless it is a
    control character, the quotation mark or the backslash), a
    two-character escape, a [\uXXXX] escape of its code, or, beyond the
    basic plane, the [\uXXXX] escapes of its two UTF-16 surrogates. *)
Inductive char_text : N -> pystr -> Prop :=
| char_itself (c : N) :
    (0x20 <= c)%N -> c <> 0x22%N -> c <> 0x5C%N -> char_text c [c]
| char_short (c e : N) :
    In (c, e) short_escapes -> char_text c [92%N; e]
| char_u (c : N) (t : pystr) :
    u_text c t -> char_text c t
| char_pair (c hi lo : N) (th tl : pystr) :
    (0xD800 <= hi < 0xDC00)%N -> (0xDC00 <= lo < 0xE000)%N ->
    c = (0x10000 + 1024 * (hi - 0xD800) + (lo - 0xDC00))%N ->
    u_text hi th -> u_text lo tl ->
    char_text c (th ++ tl).

(** A string: its characters between quotation marks. *)
Definition string_text (s t : pystr) : Prop :=
  exists ts, Forall2 char_text s ts /\ t = [0x22%N] ++ concat ts ++ [0x22%N].

(** A structural character followed by optional whitespace. *)
Definition punctuation (c : N) (t : pystr) : Prop :=
  exists w, t = c :: w /\ forallb is_ws w = true.

(** The texts of the elements, separated by commas. *)
Inductive joined : list pystr -> pystr -> Prop :=
| joined_none : joined [] []
| joined_one (t : pystr) : joined [t] t
| joined_more (t sep rest : pystr) (ts : list pystr) :
    ts <> [] -> punctuation 0x2C%N sep -> joined ts rest ->
    joined (t :: ts) (t ++ sep ++ rest).

Inductive json_text : json -> pystr -> Prop :=
| text_null : json_text JNull (py "null")
| text_true : json_text (JBool true) (py "true")
| text_false : json_text (JBool false) (py "false")
| text_int (z : Z) : json_text (JInt z) (str_int z)
| text_float (r : pystr) : nonfinite r = false -> json_text (JFloat r) r
| text_string (s t : pystr) : string_text s t -> json_text (JStr s) t
| text_array (l : list json) (ts : list pystr) (t : pystr) :
    Forall2 json_text l ts -> joined ts t ->
    json_text (JArr l) ([0x5B%N] ++ t ++ [0x5D%N])
| text_object (d : list (pystr * json)) (ms : list pystr) (t : pystr) :
    Forall2 (fun kv m =>
               exists tk colon tv,
                 string_text (fst kv) tk /\ punctuation 0x3A%N colon
                 /\ json_text (snd kv) tv /\ m = tk ++ colon ++ tv) d ms ->
    joined ms t ->
    json_text (JObj d) ([0x7B%N] ++ t ++ [0x7D%N]).

(** The values that have a JSON text: every character is a code point
    (below 0x110000, as in every Python string) and every float is
    finite. *)
Fixpoint plain_json (v : json) : bool :=
  match v with
  | JFloat r => negb (nonfinite r)
  | JStr s => forallb (fun c => c <? 0x110000)%N s
  | JArr l => forallb plain_json l
  | JObj d =>
      forallb (fun kv => forallb (fun c => c <? 0x110000)%N (fst kv)
                         && plain_json (snd kv)) d
  | _ => true
  end.

(** The items joined by [", "], as [json.dumps] joins them. *)
Fixpoint join_items (ts : list pystr) : pystr :=
  match ts with
  | [] => []
  | t :: ts' =>
      match ts' with
      | [] => t
      | _ :: _ => t ++ py ", " ++ join_items ts'
      end
  end.

(** The text of one member of an object, as [json.dumps] prints it. *)
Definition member_dumps (kv : pystr * json) : pystr :=
  encode_basestring_ascii (fst kv) ++ py ": " ++ json_dumps (snd kv).

(** [f] holds of every number below [n]. *)
Fixpoint all_below (n : nat) (f : N -> bool) : bool :=
  match n with
  | O => true
  | S k => f (N.of_nat k) && all_below k f
  end.

(** A string that is one lone surrogate, as [json.loads] makes of the
    JSON text ["\ud800"]. *)
Definition lone_surrogate : pystr := [0xD800%N].

(** * Properties *)

(** ** Strings and dicts *)

Lemma pystr_eqb_spec (a b : pystr) : pystr_eqb a b = true <-> a = b.
Proof.
  revert b; induction a as [|x a IH]; intros [|y b]; simpl;
    try (split; [discriminate | discriminate]).
  - split; reflexivity.
  - rewrite andb_true_iff, N.eqb_eq, IH.
    split; [intros [-> ->]; reflexivity | intros H; inversion H; auto].
Qed.

Lemma pystr_eqb_refl (a : pystr) : pystr_eqb a a = true.
Proof. apply pystr_eqb_spec; reflexivity. Qed.

Lemma lookup_None (k : pystr) (d : dict) :
  lookup k d = None <-> ~ In k (keys d).
Proof.
  induction d as [|[k' v] d IH]; simpl.
  - split; auto.
  - destruct (pystr_eqb k k') eqn:E.
    + apply pystr_eqb_spec in E; subst k'.
      split; [discriminate | intros H; exfalso; apply H; auto].
    + rewrite IH. split.
      * intros H [H' | H']; [| auto].
        subst k'. rewrite pystr_eqb_refl in E. discriminate.
      * intros H H'. apply H. auto.
Qed.

Lemma lookup_In (k : pystr) (d : dict) :
  In k (keys d) -> exists v, lookup k d = Some v.
Proof.
  intros H. destruct (lookup k d) as [v|] eqn:E; [eauto |].
  apply lookup_None in E. contradiction.
Qed.

Lemma lookup_cons (k k' : pystr) (v : json) (d : dict) :
  lookup k ((k', v) :: d)
  = if pystr_eqb k k' then Some v else lookup k d.
Proof. reflexivity. Qed.

Lemma lookup_dict_get (k : pystr) (d : dict) (dflt : json) :
  In k (keys d) -> lookup k d = Some (dict_get d k dflt).
Proof.
  intros H. destruct (lookup_In k d H) as [v Hv].
  unfold dict_get. rewrite Hv. reflexivity.
Qed.

Lemma dict_get_None (k : pystr) (d : dict) (dflt : json) :
  lookup k d = None -> dict_get d k dflt = dflt.
Proof. intros H. unfold dict_get. rewrite H. reflexivity. Qed.

Lemma lstrip_split (s : pystr) :
  exists l, s = l ++ lstrip s /\ forallb isspace l = true.
Proof.
  induction s as [|c s [l [Hs Hl]]]; simpl.
  - exists []; auto.
  - destruct (isspace c) eqn:E.
    + exists (c :: l); simpl. rewrite E, Hl, <- Hs. auto.
    + exists []; auto.
Qed.

Lemma lstrip_head (s : pystr) :
  match lstrip s with
  | [] => True
  | c :: _ => isspace c = false
  end.
Proof.
  induction s as [|c s IH]; simpl; [exact I |].
  destruct (isspace c) eqn:E; [exact IH | exact E].
Qed.

Lemma lstrip_snoc (s : pystr) (c : N) :
  isspace c = false -> lstrip (s ++ [c]) = lstrip s ++ [c].
Proof.
  intros Hc. induction s as [|x s IH]; simpl.
  - rewrite Hc. reflexivity.
  - destruct (isspace x); [exact IH | reflexivity].
Qed.

Lemma rstrip_cons (c : N) (s : pystr) :
  isspace c = false -> rstrip (c :: s) = c :: rstrip s.
Proof.
  intros Hc. unfold rstrip. simpl.
  rewrite lstrip_snoc by exact Hc.
  rewrite rev_app_distr. reflexivity.
Qed.

Lemma rstrip_split (s : pystr) :
  exists r, s = rstrip s ++ r /\ forallb isspace r = true.
Proof.
  destruct (lstrip_split (rev s)) as [l [Hs Hl]].
  exists (rev l). split.
  - unfold rstrip. rewrite <- rev_app_distr, <- Hs, rev_involutive.
    reflexivity.
  - rewrite forallb_forall in *. intros x Hx. apply Hl.
    apply in_rev. exact Hx.
Qed.

Lemma strip_split (s : pystr) :
  exists l r, s = l ++ strip s ++ r
              /\ forallb isspace l = true /\ forallb isspace r = true.
Proof.
  destruct (lstrip_split s) as [l [Hs Hl]].
  destruct (rstrip_split (lstrip s)) as [r [Ht Hr]].
  exists l, r. unfold strip. rewrite <- Ht. auto.
Qed.

Lemma strip_trimmed (s : pystr) : trimmed (strip s) = true.
Proof.
  unfold trimmed, strip. apply andb_true_iff. split.
  - pose proof (lstrip_head s) as H.
    destruct (lstrip s) as [|c t]; [reflexivity |].
    rewrite rstrip_cons by exact H. rewrite H. reflexivity.
  - unfold rstrip. rewrite rev_involutive.
    pose proof (lstrip_head (rev (lstrip s))) as H.
    destruct (lstrip (rev (lstrip s))); [reflexivity |].
    rewrite H. reflexivity.
Qed.

(** ** What [json.dumps] prints is printable ASCII *)

Lemma json_nested_ind (P : json -> Prop) :
  P JNull -> (forall b, P (JBool b)) -> (forall z, P (JInt z)) ->
  (forall r, P (JFloat r)) -> (forall s, P (JStr s)) ->
  (forall l, Forall P l -> P (JArr l)) ->
  (forall d, Forall (fun kv => P (snd kv)) d -> P (JObj d)) ->
  forall v, P v.
Proof.
  intros Hn Hb Hi Hf Hs Ha Ho. fix IH 1.
  intros [|b|z|r|s|l|d];
    [exact Hn | apply Hb | apply Hi | apply Hf | apply Hs | |].
  - apply Ha. induction l as [|x l IHl]; constructor; [apply IH | exact IHl].
  - apply Ho. induction d as [|[k x] d IHd]; constructor;
      [apply IH | exact IHd].
Qed.

Lemma hexdigit_printable (n : N) :
  (n < 16)%N -> printable (hexdigit n) = true.
Proof.
  intros H. unfold printable, hexdigit.
  destruct (N.ltb_spec n 10); apply andb_true_iff;
    rewrite !N.leb_le; lia.
Qed.

Lemma u_escape_printable (n : N) : forallb printable (u_escape n) = true.
Proof.
  unfold u_escape. cbn [forallb].
  rewrite !hexdigit_printable by (apply N.mod_upper_bound; discriminate).
  reflexivity.
Qed.

Lemma escape_char_printable (c : N) : forallb printable (escape_char c) = true.
Proof.
  unfold escape_char.
  destruct (_ && _) eqn:E.
  - cbn [forallb]. unfold printable.
    apply andb_true_iff in E. destruct E as [E _].
    apply andb_true_iff in E. destruct E as [E _].
    rewrite E. reflexivity.
  - repeat (match goal with
            | |- context [if ?b then _ else _] => destruct b
            end; try reflexivity);
      try apply u_escape_printable.
    rewrite forallb_app, !u_escape_printable. reflexivity.
Qed.

Lemma encode_basestring_ascii_printable (s : pystr) :
  forallb printable (encode_basestring_ascii s) = true.
Proof.
  unfold encode_basestring_ascii.
  rewrite !forallb_app. cbn [forallb]. 
  replace (printable 34) with true by reflexivity.
  rewrite andb_true_r. cbn [andb].
  induction s as [|c s IH]; [reflexivity |].
  cbn [flat_map]. rewrite forallb_app, escape_char_printable. exact IH.
Qed.

Lemma string_of_uint_printable (d : Decimal.uint) :
  forallb printable (py (NilEmpty.string_of_uint d)) = true.
Proof.
  induction d; [reflexivity | exact IHd ..].
Qed.

Lemma str_int_printable (z : Z) : forallb printable (str_int z) = true.
Proof.
  unfold str_int. destruct (Z.to_int z); apply string_of_uint_printable.
Qed.

(** ** The [try] / [except] boundary and the encoding of the answer *)

Lemma try_except_raise (b : M json) (net : network) (e : exn)
    (log : list request_args) :
  b net [] = (Raise e, log) ->
  try_except b net = (HTTPException 500 (str_exn e), log).
Proof. intros H. unfold try_except. rewrite H. reflexivity. Qed.

Lemma try_except_ok (b : M json) (net : network) (v : json)
    (log : list request_args) :
  b net [] = (Ok v, log) -> try_except b net = (returns v, log).
Proof. intros H. unfold try_except. rewrite H. reflexivity. Qed.

Lemma try_except_shape (b : M json) (net : network) :
  (exists v, fst (try_except b net) = returns v)
  \/ (exists detail, fst (try_except b net) = HTTPException 500 detail).
Proof.
  unfold try_except. destruct (b net []) as [[v|e] log]; simpl; eauto.
Qed.

Lemma handle_try_block (g : globals) (c : tool_call) :
  handle g c = try_except (try_block g c).
Proof. destruct c; reflexivity. Qed.

Lemma HTTPError_message_nonempty (st : Z) (kind why u : pystr) :
  str_exn (HTTPError st kind why u) <> [].
Proof.
  simpl. destruct (str_int st); simpl; discriminate.
Qed.

Lemma raise_for_status_error (r : Response) :
  400 <= status r < 600 ->
  exists kind, forall net log,
    raise_for_status r net log
    = (Raise (HTTPError (status r) kind (reason r) (response_url r)), log).
Proof.
  intros H. unfold raise_for_status.
  destruct ((400 <=? status r) && (status r <? 500)) eqn:E1.
  - eexists; intros; reflexivity.
  - destruct ((500 <=? status r) && (status r <? 600)) eqn:E2.
    + eexists; intros; reflexivity.
    + exfalso.
      rewrite andb_false_iff, Z.leb_gt, Z.ltb_ge in E1, E2. lia.
Qed.

Lemma raise_for_status_pass (r : Response) (net : network)
    (log : list request_args) :
  status r < 400 \/ 600 <= status r ->
  raise_for_status r net log = (Ok tt, log).
Proof.
  intros H. unfold raise_for_status.
  destruct ((400 <=? status r) && (status r <? 500)) eqn:E1.
  - rewrite andb_true_iff, Z.leb_le, Z.ltb_lt in E1. lia.
  - destruct ((500 <=? status r) && (status r <? 600)) eqn:E2.
    + rewrite andb_true_iff, Z.leb_le, Z.ltb_lt in E2. lia.
    + reflexivity.
Qed.

Lemma raise_for_status_cases (r : Response) :
  (400 <= status r < 600) \/ (status r < 400 \/ 600 <= status r).
Proof. lia. Qed.

Lemma printable_utf8 (s : pystr) :
  forallb printable s = true -> utf8_encodable s = true.
Proof.
  unfold utf8_encodable. rewrite !forallb_forall. intros H c Hc.
  specialize (H c Hc). unfold printable in H. unfold is_surrogate.
  apply andb_true_iff in H. destruct H as [_ H]. apply N.leb_le in H.
  apply negb_true_iff. apply andb_false_iff. left. apply N.leb_gt. lia.
Qed.

Lemma utf8_encodable_app (s t : pystr) :
  utf8_encodable (s ++ t) = utf8_encodable s && utf8_encodable t.
Proof. apply forallb_app. Qed.

Lemma on_wire_returns (v : json) :
  on_wire (returns v)
  = if encodable v then JSONResponse 200 v
    else PlainTextResponse 500 (py "Internal Server Error").
Proof. reflexivity. Qed.

Lemma encodable_singleton (k : pystr) (v : json) :
  utf8_encodable k = true -> encodable (JObj [(k, v)]) = encodable v.
Proof.
  intros H. cbn [encodable forallb fst snd]. rewrite H. cbn [andb].
  apply andb_true_r.
Qed.

Lemma on_wire_HTTPException (c : Z) (detail : pystr) :
  on_wire (HTTPException c detail)
  = if utf8_encodable detail
    then JSONResponse c (JObj [(py "detail", JStr detail)])
    else PlainTextResponse 500 (py "Internal Server Error").
Proof.
  unfold on_wire, HTTPException. cbn [content status_code].
  rewrite encodable_singleton by reflexivity. reflexivity.
Qed.

Lemma on_wire_200 (r : handler_result) (v : json) :
  on_wire r = JSONResponse 200 v -> r = returns v.
Proof.
  unfold on_wire. destruct r as [st c]. cbn [content status_code].
  destruct (encodable c); intros H; inversion H. reflexivity.
Qed.

Lemma on_wire_json_encodable (r : handler_result) (st : Z) (v : json) :
  on_wire r = JSONResponse st v -> encodable v = true.
Proof.
  unfold on_wire. destruct (encodable (content r)) eqn:E; intros H;
    inversion H. subst v. exact E.
Qed.

Lemma respond_eq (h : handler) (net : network) :
  respond h net = (on_wire (fst (h net)), snd (h net)).
Proof. unfold respond. destruct (h net). reflexivity. Qed.

Lemma call_handler_eq (h : handler) (net : network) :
  call_handler h net = (Handled (on_wire (fst (h net))), snd (h net)).
Proof. unfold call_handler. rewrite respond_eq. reflexivity. Qed.

Lemma raise_for_status_raises (r : Response) (net : network)
    (log : list request_args) :
  400 <= status r < 600 ->
  raise_for_status r net log
  = (Raise (HTTPError (status r)
              (if status r <? 500 then py "Client Error" else py "Server Error")
              (reason r) (response_url r)), log).
Proof.
  intros Hst. unfold raise_for_status.
  destruct (Z.ltb_spec (status r) 500) as [Hlt | Hge].
  - replace (400 <=? status r) with true by (symmetry; apply Z.leb_le; lia).
    reflexivity.
  - replace (status r <? 600) with true by (symmetry; apply Z.ltb_lt; lia).
    replace (500 <=? status r) with true by (symmetry; apply Z.leb_le; lia).
    rewrite andb_false_r. reflexivity.
Qed.

Lemma HTTPError_message_encodable (st : Z) (why u : pystr) :
  utf8_encodable why = true -> utf8_encodable u = true ->
  utf8_encodable
    (str_exn (HTTPError st
                (if st <? 500 then py "Client Error" else py "Server Error")
                why u)) = true.
Proof.
  intros Hw Hu. cbn [str_exn]. rewrite !utf8_encodable_app, Hw, Hu.
  rewrite (printable_utf8 _ (str_int_printable st)).
  destruct (st <? 500); reflexivity.
Qed.

Lemma encodable_send_answer (j : json) :
  encodable (JObj [(py "message", JStr (py "Email sent successfully"));
                   (py "response", j)])
  = encodable j.
Proof.
  cbn [encodable forallb fst snd].
  destruct (encodable j); reflexivity.
Qed.

(** ** The two handlers that call upstream themselves *)

Lemma reply_email_run (g : globals) (request : EmailRequest)
    (reply_to : pystr) (attachment : option UploadFile) (net : network) :
  let post := reply_email_post g request reply_to attachment in
  reply_email g request reply_to attachment net
  = match net post with
    | Fails e => (HTTPException 500 (str_exn e), [post])
    | Responds r =>
        match raise_for_status r net [post] with
        | (Ok _, log) =>
            (returns (JObj [(py "message", JStr (py "Reply sent successfully"))]),
             log)
        | (Raise e, log) => (HTTPException 500 (str_exn e), log)
        end
    end.
Proof.
  unfold reply_email, try_except, reply_email_try, bind, requests_call.
  simpl. destruct (net _) as [r|e]; simpl; [| reflexivity].
  destruct (raise_for_status r net _) as [[[]|e] log]; reflexivity.
Qed.

Lemma send_email_run (g : globals) (payload : json) (net : network) :
  let post := send_email_post g payload in
  send_email g (Json payload) net
  = match net post with
    | Fails e => (HTTPException 500 (str_exn e), [post])
    | Responds r =>
        match raise_for_status r net [post] with
        | (Ok _, log) =>
            match response_text r with
            | Json j =>
                (returns (JObj [(py "message", JStr (py "Email sent successfully"));
                                (py "response", j)]), log)
            | NotJson err => (HTTPException 500 err, log)
            end
        | (Raise e, log) => (HTTPException 500 (str_exn e), log)
        end
    end.
Proof.
  unfold send_email, try_except, send_email_try, bind, requests_call, lift.
  simpl. destruct (net _) as [r|e]; simpl; [| reflexivity].
  destruct (raise_for_status r net _) as [[[]|e] log]; [| reflexivity].
  destruct (response_text r); reflexivity.
Qed.

Lemma send_email_log (g : globals) (payload : json) (net : network) :
  snd (send_email g (Json payload) net) = [send_email_post g payload].
Proof.
  rewrite send_email_run.
  destruct (net _) as [r|e]; [| reflexivity].
  unfold raise_for_status, raise, ret.
  destruct (_ && _); [reflexivity |].
  destruct (_ && _); [reflexivity |].
  destruct (response_text r); reflexivity.
Qed.

Lemma reply_email_log (g : globals) (request : EmailRequest)
    (reply_to : pystr) (attachment : option UploadFile) (net : network) :
  snd (reply_email g request reply_to attachment net)
  = [reply_email_post g request reply_to attachment].
Proof.
  rewrite reply_email_run.
  destruct (net _) as [r|e]; [| reflexivity].
  unfold raise_for_status, raise, ret.
  destruct (_ && _); [reflexivity |].
  destruct (_ && _); reflexivity.
Qed.

(** ** C1: failures at the endpoint boundary *)




(** ** C5, C10: [send_email] *)




(** C10: when the upstream call of [send_email] is answered with a 2xx
    status and a body that is not JSON, decoding the answer raises after
    the call has been made: the log holds the POST, and the caller gets the
    500 envelope carrying the decoder's message. *)
Theorem send_email_undecodable_success (g : globals) (payload : json)
    (net : network) (r : Response) (err : pystr) :
  net (send_email_post g payload) = Responds r ->
  200 <= status r < 300 ->
  response_text r = NotJson err ->
  send_email g (Json payload) net
  = (HTTPException 500 err, [send_email_post g payload]).
Proof.
  intros Hnet Hst Hbody.
  rewrite send_email_run. cbv zeta. rewrite Hnet.
  rewrite raise_for_status_pass by lia. rewrite Hbody. reflexivity.
Qed.

Lemma send_email_undecodable_success_witness :
  send_email sample_globals (Json (JObj sample_payload))
    (always (answer 200 "OK" (NotJson (py "Expecting value: line 1 column 1 (char 0)"))))
  = (HTTPException 500 (py "Expecting value: line 1 column 1 (char 0)"),
     [send_email_post sample_globals (JObj sample_payload)]).
Proof.
  apply (send_email_undecodable_success sample_globals (JObj sample_payload)
           (always (answer 200 "OK" (NotJson (py "Expecting value: line 1 column 1 (char 0)"))))
           (answer 200 "OK" (NotJson (py "Expecting value: line 1 column 1 (char 0)")))).
  - reflexivity.
  - simpl; lia.
  - reflexivity.
Defined.

(** ** What [json.dumps] prints is a JSON text *)

Lemma all_below_spec (n : nat) (f : N -> bool) :
  all_below n f = true -> forall x, (x < N.of_nat n)%N -> f x = true.
Proof.
  induction n as [|k IH]; simpl; intros H x Hx; [lia |].
  apply andb_true_iff in H. destruct H as [Hk H].
  destruct (N.eq_dec x (N.of_nat k)) as [-> | Hne]; [exact Hk |].
  apply IH; [exact H | lia].
Qed.

Lemma hexdigit_nth (d : N) :
  (d < 16)%N -> nth_error hex_digits (N.to_nat d) = Some (hexdigit d).
Proof.
  intros H.
  apply (all_below_spec 16
           (fun d => match nth_error hex_digits (N.to_nat d) with
                     | Some h => N.eqb h (hexdigit d)
                     | None => false
                     end)) in H; [| reflexivity].
  destruct (nth_error hex_digits (N.to_nat d)) as [h|]; [| discriminate].
  apply N.eqb_eq in H. rewrite H. reflexivity.
Qed.

Lemma four_digits (c : N) :
  (c < 0x10000)%N ->
  (4096 * ((c / 4096) mod 16) + 256 * ((c / 256) mod 16)
   + 16 * ((c / 16) mod 16) + c mod 16 = c)%N.
Proof.
  intros H. zify. Z.to_euclidean_division_equations. lia.
Qed.

Lemma u_escape_text (c : N) : (c < 0x10000)%N -> u_text c (u_escape c).
Proof.
  intros H.
  pose proof (u_text_digits ((c / 4096) mod 16) ((c / 256) mod 16)
                ((c / 16) mod 16) (c mod 16) _ _ _ _
                (hexdigit_nth _ (N.mod_upper_bound _ 16 ltac:(discriminate)))
                (hexdigit_nth _ (N.mod_upper_bound _ 16 ltac:(discriminate)))
                (hexdigit_nth _ (N.mod_upper_bound _ 16 ltac:(discriminate)))
                (hexdigit_nth _ (N.mod_upper_bound _ 16 ltac:(discriminate))))
    as E.
  rewrite (four_digits c H) in E. exact E.
Qed.

Lemma lor_high_surrogate (y : N) :
  (y < 1024)%N -> N.lor 0xD800 y = (0xD800 + y)%N.
Proof.
  intros H.
  apply (all_below_spec 1024 (fun y => N.eqb (N.lor 0xD800 y) (0xD800 + y))) in H;
    [apply N.eqb_eq; exact H | vm_compute; reflexivity].
Qed.

Lemma lor_low_surrogate (y : N) :
  (y < 1024)%N -> N.lor 0xDC00 y = (0xDC00 + y)%N.
Proof.
  intros H.
  apply (all_below_spec 1024 (fun y => N.eqb (N.lor 0xDC00 y) (0xDC00 + y))) in H;
    [apply N.eqb_eq; exact H | vm_compute; reflexivity].
Qed.

Lemma land_low_ten (x : N) : N.land x 0x3FF = (x mod 1024)%N.
Proof. exact (N.land_ones x 10). Qed.

Lemma escape_char_text (c : N) :
  (c < 0x110000)%N -> char_text c (escape_char c).
Proof.
  intros Hc. unfold escape_char.
  destruct ((0x20 <=? c)%N && (c <=? 0x7E)%N && negb (c =? 34)%N
            && negb (c =? 92)%N) eqn:E.
  - repeat (apply andb_true_iff in E; destruct E as [E ?]).
    apply char_itself.
    + apply N.leb_le. exact E.
    + apply N.eqb_neq. apply negb_true_iff. assumption.
    + apply N.eqb_neq. apply negb_true_iff. assumption.
  - clear E.
    repeat match goal with
           | |- context [if (c =? ?k)%N then _ else _] =>
               destruct (N.eqb_spec c k) as [-> | _];
               [apply char_short; simpl; tauto |]
           end.
    destruct (N.ltb_spec c 0x10000) as [Hlt | Hge].
    + apply char_u. apply u_escape_text. exact Hlt.
    + cbv zeta. rewrite !land_low_ten, N.shiftr_div_pow2.
      change (2 ^ 10)%N with 1024%N.
      rewrite lor_high_surrogate by (apply N.mod_upper_bound; discriminate).
      rewrite lor_low_surrogate by (apply N.mod_upper_bound; discriminate).
      eapply char_pair.
      4: { apply u_escape_text. zify. Z.to_euclidean_division_equations. lia. }
      4: { apply u_escape_text. zify. Z.to_euclidean_division_equations. lia. }
      * zify. Z.to_euclidean_division_equations. lia.
      * zify. Z.to_euclidean_division_equations. lia.
      * zify. Z.to_euclidean_division_equations. lia.
Qed.

Lemma encode_basestring_ascii_text (s : pystr) :
  forallb (fun c => c <? 0x110000)%N s = true ->
  string_text s (encode_basestring_ascii s).
Proof.
  intros H. exists (map escape_char s). split.
  - induction s as [|c s IH]; simpl; constructor.
    + simpl in H. apply andb_true_iff in H. destruct H as [H _].
      apply escape_char_text. apply N.ltb_lt. exact H.
    + apply IH. simpl in H. apply andb_true_iff in H. tauto.
  - unfold encode_basestring_ascii. rewrite flat_map_concat_map. reflexivity.
Qed.

Lemma json_dumps_array (l : list json) :
  json_dumps (JArr l) = py "[" ++ join_items (map json_dumps l) ++ py "]".
Proof.
  cbn [json_dumps]. f_equal. f_equal.
  induction l as [|x l IH]; [reflexivity |].
  destruct l as [|y l]; [reflexivity |].
  cbn [map] in *.
  change (join_items (json_dumps x :: json_dumps y :: map json_dumps l))
    with (json_dumps x ++ py ", "
          ++ join_items (json_dumps y :: map json_dumps l)).
  rewrite <- IH. reflexivity.
Qed.

Lemma json_dumps_object (d : list (pystr * json)) :
  json_dumps (JObj d) = py "{" ++ join_items (map member_dumps d) ++ py "}".
Proof.
  cbn [json_dumps]. f_equal. f_equal.
  induction d as [|[k x] d IH]; [reflexivity |].
  destruct d as [|[k' y] d]; [reflexivity |].
  cbn [map] in *.
  change (join_items (member_dumps (k, x) :: member_dumps (k', y)
                        :: map member_dumps d))
    with (member_dumps (k, x) ++ py ", "
          ++ join_items (member_dumps (k', y) :: map member_dumps d)).
  rewrite <- IH. unfold member_dumps at 1. cbn [fst snd].
  rewrite <- !app_assoc. reflexivity.
Qed.

Lemma join_items_joined (ts : list pystr) : joined ts (join_items ts).
Proof.
  induction ts as [|t ts IH]; [constructor |].
  destruct ts as [|t' ts]; [constructor |].
  cbn [join_items]. apply joined_more; [discriminate | | exact IH].
  exists [0x20%N]. split; reflexivity.
Qed.

Lemma float_text_finite (r : pystr) : nonfinite r = false -> float_text r = r.
Proof.
  unfold nonfinite, float_text. intros H.
  apply orb_false_iff in H. destruct H as [H H3].
  apply orb_false_iff in H. destruct H as [H1 H2].
  rewrite H1, H2, H3. reflexivity.
Qed.

(** What [json.dumps] prints for a value with a JSON text is a JSON text
    of that value. *)
Lemma json_dumps_text (v : json) :
  plain_json v = true -> json_text v (json_dumps v).
Proof.
  induction v as [|b|z|r|s|l IH|d IH] using json_nested_ind; intros H.
  - constructor.
  - destruct b; constructor.
  - constructor.
  - cbn [json_dumps]. cbn [plain_json] in H. apply negb_true_iff in H.
    rewrite (float_text_finite r H). constructor. exact H.
  - constructor. apply encode_basestring_ascii_text. exact H.
  - rewrite json_dumps_array.
    apply (text_array l (map json_dumps l)); [| apply join_items_joined].
    cbn [plain_json] in H.
    induction IH as [|x l Hx _ IHl]; cbn [map]; constructor.
    + apply Hx. cbn [forallb] in H. apply andb_true_iff in H. tauto.
    + apply IHl. cbn [forallb] in H. apply andb_true_iff in H. tauto.
  - rewrite json_dumps_object.
    apply (text_object d (map member_dumps d)); [| apply join_items_joined].
    cbn [plain_json] in H.
    induction IH as [|[k x] d Hx _ IHd]; cbn [map]; constructor.
    + cbn [forallb fst snd] in H.
      apply andb_true_iff in H. destruct H as [H _].
      apply andb_true_iff in H. destruct H as [Hk Hv].
      exists (encode_basestring_ascii k), (py ": "), (json_dumps x).
      cbn [fst snd]. split; [apply encode_basestring_ascii_text; exact Hk |].
      split; [exists [0x20%N]; split; reflexivity |].
      split; [apply Hx; exact Hv | reflexivity].
    + apply IHd. cbn [forallb] in H. apply andb_true_iff in H. tauto.
Qed.

Lemma json_text_nan (t : pystr) : ~ json_text (JArr [JFloat (py "nan")]) t.
Proof.
  intros H. inversion H as [| | | | | |l ts t' Hl Hj|]; subst.
  inversion Hl as [|x tx l' ts' Hx Hrest]; subst.
  inversion Hx as [| | | |r Hr| | |]; subst.
  discriminate Hr.
Qed.

(** ** C6, C9: [reply_email] *)




(** C9: the cc and bcc of the inbound request never reach the upstream
    form: whatever they are, the form data have exactly the keys
    account_id, subject, body, to, reply_to, and the whole upstream call is
    the one made for the same request without cc and bcc. *)
Theorem reply_email_drops_cc_bcc (g : globals) (request : EmailRequest)
    (reply_to : pystr) (attachment : option UploadFile) :
  let post := reply_email_post g request reply_to attachment in
  let bare :=
    {| account_id := account_id request; subject := subject request;
       body := body request; to := to request; cc := None; bcc := None |} in
  option_map (map fst) (data post)
  = Some [py "account_id"; py "subject"; py "body"; py "to"; py "reply_to"]
  /\ post = reply_email_post g bare reply_to attachment
  /\ forall net,
       reply_email g request reply_to attachment net
       = reply_email g bare reply_to attachment net.
Proof.
  cbv zeta. split; [reflexivity |]. split; [reflexivity |].
  intros net. rewrite !reply_email_run. reflexivity.
Qed.

(** ** C2: projecting a projection *)

(** The projection of a JSON object: the first three items cannot raise. *)
Lemma email_summary_obj (d : dict) :
  email_summary (JObj d)
  = let! from :=
      py_get (dict_get d (py "from_attendee") (JObj [])) (py "email") JNull in
    let! body := py_strip (dict_get d (py "body_markdown") (JStr [])) in
    Ok (JObj [(py "id", dict_get d (py "id") JNull);
              (py "subject", dict_get d (py "subject") JNull);
              (py "date", dict_get d (py "date") JNull);
              (py "from", from);
              (py "body", body)]).
Proof. reflexivity. Qed.

Lemma not_summary_key (k : pystr) :
  pystr_eqb k (py "id") = false ->
  pystr_eqb k (py "subject") = false ->
  pystr_eqb k (py "date") = false ->
  pystr_eqb k (py "from") = false ->
  pystr_eqb k (py "body") = false ->
  ~ In k summary_keys.
Proof.
  intros H1 H2 H3 H4 H5 H. unfold summary_keys in H.
  repeat (destruct H as [H | H];
          [subst k; rewrite pystr_eqb_refl in *; discriminate |]).
  exact H.
Qed.

(** C2, as stated, fails: the summary of [sample_record] has exactly the
    five keys, and projecting it again returns another record, with the
    sender and the body gone. *)
Lemma summary_of_summary_differs :
  email_summary sample_record = Ok (JObj sample_summary)
  /\ keys sample_summary = summary_keys
  /\ email_summary (JObj sample_summary)
     = Ok (JObj [(py "id", JStr (py "e1"));
                 (py "subject", JStr (py "Hello"));
                 (py "date", JStr (py "2024-05-01T10:00:00Z"));
                 (py "from", JNull);
                 (py "body", JStr [])])
  /\ email_summary (JObj sample_summary) <> Ok (JObj sample_summary)
  /\ ~ dict_eq (resummary sample_summary) sample_summary.
Proof.
  repeat split; try reflexivity.
  - vm_compute. discriminate.
  - intros H. specialize (H (py "from")). vm_compute in H. discriminate H.
Qed.

(** C2, amended: on a record with exactly the keys id, subject, date, from,
    body (in any order) the projection keeps id, subject and date, and sets
    from to null and body to the empty string, because it reads the sender
    and the body under the upstream keys from_attendee and body_markdown.
    So it returns the record unchanged exactly when the record's from is
    null and its body is empty. *)
Theorem summary_of_summary (d : dict) :
  Permutation (keys d) summary_keys ->
  email_summary (JObj d) = Ok (JObj (resummary d))
  /\ (dict_eq (resummary d) d
      <-> lookup (py "from") d = Some JNull
          /\ lookup (py "body") d = Some (JStr [])).
Proof.
  intros HP.
  assert (Hin : forall k, In k (keys d) <-> In k summary_keys).
  { intros k; split; apply Permutation_in;
      [exact HP | apply Permutation_sym; exact HP]. }
  assert (Hout : forall k, ~ In k summary_keys -> lookup k d = None).
  { intros k Hk. apply lookup_None. intros H. apply Hk, Hin, H. }
  assert (Hfa : lookup (py "from_attendee") d = None).
  { apply Hout. intros H. vm_compute in H.
    repeat (destruct H as [H | H]; [discriminate H |]). exact H. }
  assert (Hbm : lookup (py "body_markdown") d = None).
  { apply Hout. intros H. vm_compute in H.
    repeat (destruct H as [H | H]; [discriminate H |]). exact H. }
  split.
  - rewrite email_summary_obj.
    rewrite (dict_get_None _ _ (JObj []) Hfa), (dict_get_None _ _ (JStr []) Hbm).
    reflexivity.
  - split.
    + intros H. split.
      * rewrite <- (H (py "from")). reflexivity.
      * rewrite <- (H (py "body")). reflexivity.
    + intros [Hfrom Hbody] k. unfold resummary.
      rewrite !lookup_cons.
      destruct (pystr_eqb k (py "id")) eqn:E1.
      { apply pystr_eqb_spec in E1; subst k. symmetry.
        apply lookup_dict_get, Hin. vm_compute; auto. }
      destruct (pystr_eqb k (py "subject")) eqn:E2.
      { apply pystr_eqb_spec in E2; subst k. symmetry.
        apply lookup_dict_get, Hin. vm_compute; auto. }
      destruct (pystr_eqb k (py "date")) eqn:E3.
      { apply pystr_eqb_spec in E3; subst k. symmetry.
        apply lookup_dict_get, Hin. vm_compute; auto. }
      destruct (pystr_eqb k (py "from")) eqn:E4.
      { apply pystr_eqb_spec in E4; subst k. symmetry. exact Hfrom. }
      destruct (pystr_eqb k (py "body")) eqn:E5.
      { apply pystr_eqb_spec in E5; subst k. symmetry. exact Hbody. }
      simpl. symmetry. apply Hout. apply not_summary_key; assumption.
Qed.

Lemma summary_of_summary_witness :
  email_summary (JObj sample_summary) = Ok (JObj (resummary sample_summary))
  /\ (dict_eq (resummary sample_summary) sample_summary
      <-> lookup (py "from") sample_summary = Some JNull
          /\ lookup (py "body") sample_summary = Some (JStr [])).
Proof.
  apply (summary_of_summary sample_summary). reflexivity.
Defined.

(** ** C4: the projection of upstream records *)

Lemma comprehension_Forall2 {A B} (f : A -> result B) (l : list A)
    (out : list B) :
  comprehension f l = Ok out -> Forall2 (fun x y => f x = Ok y) l out.
Proof.
  revert out. induction l as [|x l IH]; simpl; intros out H.
  - inversion H. constructor.
  - destruct (f x) as [y|e] eqn:Ex; simpl in H; [| discriminate].
    destruct (comprehension f l) as [ys|e] eqn:El; simpl in H; [| discriminate].
    inversion H; subst out. constructor; auto.
Qed.

Lemma comprehension_length {A B} (f : A -> result B) (l : list A)
    (out : list B) :
  comprehension f l = Ok out -> length out = length l.
Proof.
  intros H. apply comprehension_Forall2 in H.
  induction H; simpl; congruence.
Qed.

Lemma comprehension_total {A B} (f : A -> result B) (l : list A) :
  (forall x, In x l -> exists y, f x = Ok y) ->
  exists out, comprehension f l = Ok out.
Proof.
  induction l as [|x l IH]; simpl; intros H.
  - eexists; reflexivity.
  - destruct (H x (or_introl eq_refl)) as [y Hy].
    destruct IH as [ys Hys]; [intros z Hz; apply H; auto |].
    rewrite Hy, Hys. simpl. eexists; reflexivity.
Qed.

Lemma email_summary_well_typed (d : dict) :
  well_typed_record (JObj d) = true ->
  email_summary (JObj d) = Ok (JObj (summary_of d)).
Proof.
  intros H. rewrite email_summary_obj.
  unfold well_typed_record in H. apply andb_true_iff in H. destruct H as [Ha Hb].
  unfold summary_of, sender_of, markdown_of, dict_get.
  destruct (lookup (py "from_attendee") d) as [[| | | | | |a]|];
    try discriminate Ha;
    destruct (lookup (py "body_markdown") d) as [[| | | |s| |]|];
    try discriminate Hb; reflexivity.
Qed.

(** C4 (the code misses the claim): the defaults of [.get] cover an absent
    [from_attendee] and an absent [body_markdown], not a present one that
    is null. On the upstream list of a good record followed by the record
    [{"id": "e1", "body_markdown": null}] the projection calls [strip] on
    [None]; the claim promises a summary with an empty body, the code
    answers 500 for the whole listing. A null [from_attendee] fails the
    same way on [get]. *)
Theorem get_emails_raises_on_null_parts :
  let null_body := JObj [(py "id", JStr (py "e1")); (py "body_markdown", JNull)] in
  let null_sender := JObj [(py "id", JStr (py "e1")); (py "from_attendee", JNull)] in
  let net := always (answer 200 "OK" (Json JNull)) in
  email_summary null_body = Raise (AttributeError (py "NoneType") (py "strip"))
  /\ email_summary null_sender = Raise (AttributeError (py "NoneType") (py "get"))
  /\ respond (get_emails (canned_globals (Json (JArr [sample_record; null_body])))
                (py "a1") 10) net
     = (JSONResponse 500
          (JObj [(py "detail",
                  JStr (py "'NoneType' object has no attribute 'strip'"))]), [])
  /\ respond (get_emails (canned_globals (Json (JArr [null_sender])))
                (py "a1") 10) net
     = (JSONResponse 500
          (JObj [(py "detail",
                  JStr (py "'NoneType' object has no attribute 'get'"))]), []).
Proof. cbv zeta. repeat split; reflexivity. Qed.

(** ** C3: the length of the listings *)

Lemma get_recent_messages_returns_inv (g : globals) (w : UnipileWrapper)
    (account : pystr) (n : Z) (net : network) (v : json) :
  unipile g = Some w ->
  fst (get_recent_messages g account n net) = returns (JObj [(py "data", v)]) ->
  exists log,
    unipile_get_all_messages w account n net [] = (Ok (Json v), log).
Proof.
  intros Hw.
  unfold get_recent_messages, try_except, get_recent_messages_try, bind,
    unipile_method, lift.
  rewrite Hw.
  destruct (unipile_get_all_messages w account n net [])
    as [[[v'|err]|e] log]; cbn; intros H; inversion H.
  exists log. reflexivity.
Qed.

Lemma get_emails_returns_inv (g : globals) (w : UnipileWrapper)
    (account : pystr) (n : Z) (net : network) (l : list json) :
  unipile g = Some w ->
  fst (get_emails g account n net) = returns (JObj [(py "emails", JArr l)]) ->
  exists v log,
    unipile_get_emails w account n net [] = (Ok (Json v), log)
    /\ match v with
       | JArr rs => length l = length rs
       | _ => l = []
       end.
Proof.
  intros Hw.
  unfold get_emails, try_except, get_emails_try, bind, unipile_method, lift.
  rewrite Hw.
  destruct (unipile_get_emails w account n net [])
    as [[[v|err]|e] log]; cbn [json_loads]; try (intros H; discriminate H).
  intros H. exists v, log. split; [reflexivity |].
  destruct v as [| | | |s|rs|d]; cbn in H; try discriminate H.
  - destruct s; cbn in H; [inversion H; reflexivity | discriminate H].
  - destruct (comprehension email_summary rs) as [out|e] eqn:E; cbn in H;
      [| discriminate H].
    inversion H; subst l. apply (comprehension_length _ _ _ E).
  - destruct d as [|[k x] d]; cbn in H;
      [inversion H; reflexivity | discriminate H].
Qed.

Lemma capped_list_length (n : Z) (t : text) (rs : list json) :
  0 <= n -> capped n t = Json (JArr rs) -> Z.of_nat (length rs) <= n.
Proof.
  intros Hn H. unfold capped in H.
  destruct t as [[| | | | |l|]|]; inversion H; subst.
  pose proof (firstn_le_length (Z.to_nat n) l). lia.
Qed.

Lemma spec_listing_capped (describe : Z -> text -> pystr)
    (dsn api_key : option pystr) (path : string)
    (params : list (pystr * pystr)) (n : Z) (net : network) (t : text)
    (log : list request_args) :
  (t0 <- upstream_get describe dsn api_key path params ;; ret (capped n t0))
    net [] = (Ok t, log) ->
  exists t0, t = capped n t0.
Proof.
  unfold upstream_get, requests_call, bind, ret, raise. cbv beta.
  match goal with
  | |- context [net ?a] => destruct (net a) as [r|e]
  end; [| discriminate].
  destruct (_ && _); [| discriminate].
  intros H. inversion H. eexists; reflexivity.
Qed.

(** C3: with the wrapper that spec 4.1 to 4.3 and 8 describe, for every
    account reference, every requested size (not negative; the spec asks
    for a positive one) and every upstream response, the list that
    [get_recent_messages] returns and the list of emails that [get_emails]
    returns are at most as long as the requested size. *)
Theorem listings_within_requested_size (describe : Z -> text -> pystr)
    (dsn api_key : option pystr) (g : globals) (account : pystr) (n : Z)
    (net : network) :
  unipile g = Some (spec_UnipileWrapper describe dsn api_key) ->
  0 <= n ->
  (forall l,
      fst (respond (get_recent_messages g account n) net)
      = JSONResponse 200 (JObj [(py "data", JArr l)]) ->
      Z.of_nat (length l) <= n)
  /\ (forall l,
        fst (respond (get_emails g account n) net)
        = JSONResponse 200 (JObj [(py "emails", JArr l)]) ->
        Z.of_nat (length l) <= n).
Proof.
  intros Hw Hn. split; intros l H; rewrite respond_eq in H; cbn [fst] in H;
    apply on_wire_200 in H.
  - destruct (get_recent_messages_returns_inv _ _ _ _ _ _ Hw H) as [log E].
    cbn [unipile_get_all_messages spec_UnipileWrapper] in E.
    destruct (spec_listing_capped _ _ _ _ _ _ _ _ _ E) as [t0 Ht].
    symmetry in Ht. apply (capped_list_length n t0 l Hn Ht).
  - destruct (get_emails_returns_inv _ _ _ _ _ _ Hw H) as [v [log [E Hv]]].
    cbn [unipile_get_emails spec_UnipileWrapper] in E.
    destruct (spec_listing_capped _ _ _ _ _ _ _ _ _ E) as [t0 Ht].
    destruct v as [| | | | |rs|]; try (subst l; simpl; lia).
    rewrite Hv. symmetry in Ht. apply (capped_list_length n t0 rs Hn Ht).
Qed.

Lemma listings_within_requested_size_witness :
  fst (respond (get_emails serving_globals (py "a1") 2)
         (always (answer 200 "OK"
                    (Json (JArr [sample_record; sample_record; sample_record])))))
  = JSONResponse 200
      (JObj [(py "emails", JArr [JObj sample_summary; JObj sample_summary])])
  /\ Z.of_nat (length [JObj sample_summary; JObj sample_summary]) <= 2.
Proof.
  split; [reflexivity |].
  refine (proj2 (listings_within_requested_size
                   (fun _ _ => py "upstream error")
                   (Some (py "api1.unipile.com:13111")) (Some (py "secret"))
                   serving_globals (py "a1") 2
                   (always (answer 200 "OK"
                              (Json (JArr [sample_record; sample_record;
                                           sample_record]))))
                   eq_refl _)
            [JObj sample_summary; JObj sample_summary] _).
  - lia.
  - reflexivity.
Defined.

(** ** C7: missing parameters *)

(** C7, as stated, fails: a send request without subject, body and
    recipients is not refused; its body is posted upstream and the caller
    gets a 200. (And a listing request without [account_id] is answered
    with 422 by parameter binding, not with the 500 envelope.) *)
Lemma send_email_without_required_fields :
  let request := [(py "account_id", JStr (py "a1"))] in
  let net := always (answer 200 "OK" (Json (JObj []))) in
  let run := dispatch sample_globals (unipile_send_email_req (Json (JObj request))) net in
  lookup (py "subject") request = None
  /\ lookup (py "body") request = None
  /\ lookup (py "to") request = None
  /\ outcome_status (fst run) = 200
  /\ snd run = [send_email_post sample_globals (JObj request)]
  /\ outcome_status
       (fst (dispatch sample_globals (unipile_get_emails_req None (Some 5)) net))
     = 422.
Proof. repeat split; reflexivity. Qed.

(** C7, amended: a request to a listing endpoint without [account_id], or
    a reply request without one of account_id, subject, body, to or
    reply_to, is refused by parameter binding with status 422 before the
    handler runs, so without any upstream call; [send_email] declares no
    required field, and every JSON object body is posted upstream. *)
Theorem missing_parameters (g : globals) (net : network) :
  (forall limit,
      dispatch g (unipile_get_emails_req None limit) net
      = (Rejected [py "account_id"], []))
  /\ (forall batch_size,
        dispatch g (unipile_get_recent_messages_req None batch_size) net
        = (Rejected [py "account_id"], []))
  /\ (forall raw reply_to attachment,
        raw_account_id raw = None \/ raw_subject raw = None
        \/ raw_body raw = None \/ raw_to raw = None \/ reply_to = None ->
        exists missing,
          missing <> []
          /\ dispatch g (unipile_reply_email_req raw reply_to attachment) net
             = (Rejected missing, [])
          /\ outcome_status (Rejected missing) = 422)
  /\ (forall d,
        snd (dispatch g (unipile_send_email_req (Json (JObj d))) net)
        = [send_email_post g (JObj d)]).
Proof.
  split; [| split; [| split]].
  - intros limit. reflexivity.
  - intros batch_size. reflexivity.
  - intros raw reply_to attachment _. cbn [dispatch]. unfold reject.
    eexists. split; [| split; reflexivity]. discriminate.
  - intros d. cbn [dispatch]. rewrite call_handler_eq. cbn [snd].
    apply send_email_log.
Qed.

Lemma missing_parameters_witness :
  exists missing,
    missing <> []
    /\ dispatch sample_globals
         (unipile_reply_email_req
            {| raw_account_id := Some (py "a1"); raw_subject := None;
               raw_body := Some (py "Test");
               raw_to := Some [JStr (py "x@y.com")];
               raw_cc := None; raw_bcc := None |}
            (Some (py "m1")) None)
         (always (answer 200 "OK" (Json JNull)))
       = (Rejected missing, [])
    /\ outcome_status (Rejected missing) = 422.
Proof.
  apply (proj1 (proj2 (proj2
           (missing_parameters sample_globals
              (always (answer 200 "OK" (Json JNull))))))).
  right. left. reflexivity.
Defined.

(** ** C8: startup *)

(** C8: when [UNIPILE_DSN] or [UNIPILE_API_KEY] is missing or empty,
    startup raises and the run serves no request; when both are present
    (and not empty), startup constructs the wrapper exactly once, from
    these two values, and the requests are served. *)
Theorem startup_requires_configuration
    (new : option pystr -> option pystr -> UnipileWrapper)
    (env : environ) (net : network) (reqs : list request) :
  let dsn := env (py "UNIPILE_DSN") in
  let api_key := env (py "UNIPILE_API_KEY") in
  (dsn = None \/ dsn = Some [] \/ api_key = None \/ api_key = Some [] ->
   exists e,
     lifespan new env (module_globals env) = Raise e
     /\ run new env net reqs = StartupFailed e)
  /\ (forall d k,
        dsn = Some d -> d <> [] -> api_key = Some k -> k <> [] ->
        exists g responses,
          lifespan new env (module_globals env) = Ok (g, [(Some d, Some k)])
          /\ unipile g = Some (new (Some d) (Some k))
          /\ run new env net reqs = Serving [(Some d, Some k)] responses
          /\ length responses = length reqs).
Proof.
  cbv zeta. split.
  - intros H.
    assert (Hnot : py_not (env (py "UNIPILE_DSN"))
                   || py_not (env (py "UNIPILE_API_KEY")) = true).
    { apply orb_true_iff.
      destruct H as [H | [H | [H | H]]]; rewrite H; auto. }
    unfold run, lifespan. rewrite Hnot. eexists; split; reflexivity.
  - intros d k Hd Hd' Hk Hk'.
    unfold run, lifespan. rewrite Hd, Hk.
    destruct d as [|c d]; [congruence |].
    destruct k as [|c' k]; [congruence |].
    cbn [py_not orb].
    eexists; eexists. repeat split. apply length_map.
Qed.

Lemma startup_requires_configuration_witness :
  (exists e,
      lifespan (spec_UnipileWrapper (fun _ _ => []))
        (sample_env (Some (py "api1.unipile.com:13111")) None)
        (module_globals (sample_env (Some (py "api1.unipile.com:13111")) None))
      = Raise e
      /\ run (spec_UnipileWrapper (fun _ _ => []))
           (sample_env (Some (py "api1.unipile.com:13111")) None)
           (always (answer 200 "OK" (Json (JArr []))))
           [unipile_get_accounts_req]
         = StartupFailed e)
  /\ (exists g responses,
        lifespan (spec_UnipileWrapper (fun _ _ => []))
          (sample_env (Some (py "h")) (Some (py "k")))
          (module_globals (sample_env (Some (py "h")) (Some (py "k"))))
        = Ok (g, [(Some (py "h"), Some (py "k"))])
        /\ unipile g
           = Some (spec_UnipileWrapper (fun _ _ => []) (Some (py "h")) (Some (py "k")))
        /\ run (spec_UnipileWrapper (fun _ _ => []))
             (sample_env (Some (py "h")) (Some (py "k")))
             (always (answer 200 "OK" (Json (JArr []))))
             [unipile_get_accounts_req]
           = Serving [(Some (py "h"), Some (py "k"))] responses
        /\ length responses = length [unipile_get_accounts_req]).
Proof.
  split.
  - apply (proj1 (startup_requires_configuration
                    (spec_UnipileWrapper (fun _ _ => []))
                    (sample_env (Some (py "api1.unipile.com:13111")) None)
                    (always (answer 200 "OK" (Json (JArr []))))
                    [unipile_get_accounts_req])).
    right. right. left. reflexivity.
  - apply (proj2 (startup_requires_configuration
                    (spec_UnipileWrapper (fun _ _ => []))
                    (sample_env (Some (py "h")) (Some (py "k")))
                    (always (answer 200 "OK" (Json (JArr []))))
                    [unipile_get_accounts_req]) (py "h") (py "k")).
    + reflexivity.
    + discriminate.
    + reflexivity.
    + discriminate.
Defined.

(** * Further properties of the handlers *)

(** ** The shape of every response *)

Ltac split_matches H :=
  repeat match type of H with
         | context [match ?x with _ => _ end] => destruct x eqn:?
         end.

Lemma try_block_ok_shape (g : globals) (c : tool_call) (net : network)
    (v : json) (log : list request_args) :
  try_block g c net [] = (Ok v, log) ->
  exists d, v = JObj d /\ keys d = success_keys c.
Proof.
  destruct c; cbn [try_block success_keys];
    unfold get_accounts_try, reply_email_try, send_email_try,
      get_recent_messages_try, get_emails_try, bind, lift, ret, raise,
      unipile_method, requests_call, raise_for_status;
    intros H; split_matches H;
    try discriminate H; inversion H; subst;
    eexists; split; reflexivity.
Qed.

(** X1: whatever the wrapper and the network do, the answer to a call of
    one of the five handlers is one of three: status 200 with the returned
    dict, which has exactly that handler's success keys; status 500 with a
    JSON body that has the single key [detail] bound to a string; or, when
    what the handler hands over cannot be encoded, status 500 with the
    plain text [Internal Server Error]. *)
Theorem response_shape (g : globals) (c : tool_call) (net : network) :
  let w := fst (respond (handle g c) net) in
  (exists d, w = JSONResponse 200 (JObj d) /\ keys d = success_keys c)
  \/ (exists detail, w = JSONResponse 500 (JObj [(py "detail", JStr detail)]))
  \/ w = PlainTextResponse 500 (py "Internal Server Error").
Proof.
  cbv zeta. rewrite respond_eq. cbn [fst].
  rewrite handle_try_block. unfold try_except.
  destruct (try_block g c net []) as [[v|e] log] eqn:E; cbn [fst].
  - destruct (try_block_ok_shape g c net v log E) as [d [-> Hk]].
    rewrite on_wire_returns. destruct (encodable (JObj d)); eauto.
  - rewrite on_wire_HTTPException.
    destruct (utf8_encodable (str_exn e)); eauto.
Qed.

(** ** Parameter binding *)

(** X2: over HTTP, [get_accounts] and [send_email] are never refused by
    parameter binding; the two account listings are refused exactly when
    [account_id] is absent; a reply request is always refused, because its
    body model cannot be bound next to the file parameter. A refused
    request makes no upstream call. *)
Theorem rejected_iff_unbindable (g : globals) (req : request)
    (net : network) :
  ((exists missing, fst (dispatch g req net) = Rejected missing)
   <-> match req with
       | unipile_get_accounts_req => False
       | unipile_send_email_req _ => False
       | unipile_get_recent_messages_req account _ => account = None
       | unipile_get_emails_req account _ => account = None
       | unipile_reply_email_req _ _ _ => True
       end)
  /\ (forall missing,
        fst (dispatch g req net) = Rejected missing ->
        snd (dispatch g req net) = []).
Proof.
  split.
  - destruct req as [|raw reply_to att|request|account n|account n];
      cbn [dispatch]; try rewrite call_handler_eq; cbn [fst].
    + split; [intros [m H]; discriminate | tauto].
    + split; [tauto | intros _; eexists; reflexivity].
    + split; [intros [m H]; discriminate | tauto].
    + destruct account; try rewrite call_handler_eq; cbn [fst]; split;
        try (intros [m H]; discriminate H); try discriminate;
        try (intros _; eexists; reflexivity); auto.
    + destruct account; try rewrite call_handler_eq; cbn [fst]; split;
        try (intros [m H]; discriminate H); try discriminate;
        try (intros _; eexists; reflexivity); auto.
  - intros missing.
    destruct req as [|raw reply_to att|request|account n|account n];
      cbn [dispatch]; try rewrite call_handler_eq; cbn [fst snd];
      try discriminate; try reflexivity;
      destruct account; try rewrite call_handler_eq; cbn [fst snd];
      try discriminate; reflexivity.
Qed.

Lemma rejected_iff_unbindable_witness :
  snd (dispatch sample_globals (unipile_get_emails_req None (Some 5))
         (always (answer 200 "OK" (Json JNull)))) = [].
Proof.
  apply (proj2 (rejected_iff_unbindable sample_globals
                  (unipile_get_emails_req None (Some 5))
                  (always (answer 200 "OK" (Json JNull))))
           [py "account_id"]).
  reflexivity.
Defined.

(** ** The listing handlers and the wrapper *)

(** X3: while the global [unipile] is still [None] (no startup has run),
    the three listing handlers answer 500 with the message of the
    attribute error on [None], naming the method, and call nothing. *)
Theorem listing_before_startup (g : globals) (net : network) :
  unipile g = None ->
  get_accounts g net
  = (HTTPException 500 (py "'NoneType' object has no attribute 'get_accounts'"), [])
  /\ (forall account n,
        get_recent_messages g account n net
        = (HTTPException 500
             (py "'NoneType' object has no attribute 'get_all_messages'"), []))
  /\ (forall account n,
        get_emails g account n net
        = (HTTPException 500
             (py "'NoneType' object has no attribute 'get_emails'"), [])).
Proof.
  intros H.
  unfold get_accounts, get_recent_messages, get_emails, try_except,
    get_accounts_try, get_recent_messages_try, get_emails_try, bind,
    unipile_method.
  rewrite H. repeat split.
Qed.

Lemma listing_before_startup_witness :
  get_accounts sample_globals (always (answer 200 "OK" (Json JNull)))
  = (HTTPException 500 (py "'NoneType' object has no attribute 'get_accounts'"), []).
Proof.
  apply (proj1 (listing_before_startup sample_globals
                  (always (answer 200 "OK" (Json JNull))) eq_refl)).
Defined.



(** ** When [reply_email] and [send_email] report success *)

(** X5: [reply_email] answers "Reply sent successfully" exactly when the
    upstream call is answered with a status below 400 or from 600 on; the
    upstream body plays no part. *)
Theorem reply_email_succeeds_iff (g : globals) (request : EmailRequest)
    (reply_to : pystr) (attachment : option UploadFile) (net : network) :
  fst (reply_email g request reply_to attachment net)
  = returns (JObj [(py "message", JStr (py "Reply sent successfully"))])
  <-> exists r,
        net (reply_email_post g request reply_to attachment) = Responds r
        /\ (status r < 400 \/ 600 <= status r).
Proof.
  rewrite reply_email_run. cbv zeta.
  destruct (net _) as [r|e] eqn:Hnet.
  - destruct (raise_for_status_cases r) as [Hst | Hst].
    + destruct (raise_for_status_error r Hst) as [kind Hk]. rewrite Hk.
      split; [discriminate |].
      intros [r' [Hr' Hst']]. inversion Hr'; subst r'. lia.
    + rewrite raise_for_status_pass by exact Hst.
      split; [intros _; exists r; auto | reflexivity].
  - split; [discriminate | intros [r [Hr _]]; discriminate].
Qed.

Lemma reply_email_succeeds_iff_witness :
  fst (reply_email sample_globals sample_request (py "m1") None
         (always (answer 202 "Accepted" (NotJson []))))
  = returns (JObj [(py "message", JStr (py "Reply sent successfully"))]).
Proof.
  apply (proj2 (reply_email_succeeds_iff sample_globals sample_request
                  (py "m1") None
                  (always (answer 202 "Accepted" (NotJson []))))).
  exists (answer 202 "Accepted" (NotJson [])).
  split; [reflexivity | left; simpl; lia].
Defined.



(** X7: [send_email] calls upstream at most once, and exactly when the
    request body decodes as JSON: any JSON value is posted (also a list or
    a string), and a body that does not decode is answered 500 with the
    decoder's message without any call. *)
Theorem send_email_calls_upstream_iff_json (g : globals) (request : text)
    (net : network) :
  snd (send_email g request net) = send_email_calls g request
  /\ (forall err, request = NotJson err ->
                  send_email g request net = (HTTPException 500 err, [])).
Proof.
  split.
  - destruct request as [payload|err]; [apply send_email_log | reflexivity].
  - intros err ->. reflexivity.
Qed.

Lemma send_email_calls_upstream_iff_json_witness :
  send_email sample_globals (NotJson (py "Expecting value"))
    (always (answer 200 "OK" (Json JNull)))
  = (HTTPException 500 (py "Expecting value"), []).
Proof.
  apply (proj2 (send_email_calls_upstream_iff_json sample_globals
                  (NotJson (py "Expecting value"))
                  (always (answer 200 "OK" (Json JNull))))
           (py "Expecting value") eq_refl).
Defined.

(** ** The projection of [get_emails] *)

(** X8: the projection of one upstream record succeeds exactly on a JSON
    object whose [from_attendee], if present, is an object and whose
    [body_markdown], if present, is a string; on a record that is not an
    object it raises the attribute error for [get] on that type. *)
Theorem email_summary_succeeds_iff (r : json) :
  ((exists s, email_summary r = Ok s) <-> well_typed_record r = true)
  /\ ((forall d, r <> JObj d) ->
      email_summary r = Raise (AttributeError (type_name r) (py "get"))).
Proof.
  split.
  - split.
    + intros [s H]. destruct r as [| | | | | |d]; try discriminate H.
      rewrite email_summary_obj in H.
      unfold well_typed_record. unfold dict_get in H.
      destruct (lookup (py "from_attendee") d) as [[| | | | | |a]|];
        try discriminate H;
        destruct (lookup (py "body_markdown") d) as [[| | | |b| |]|];
        try discriminate H; reflexivity.
    + intros H. destruct r as [| | | | | |d]; try discriminate H.
      eexists. apply email_summary_well_typed. exact H.
  - intros H. destruct r as [| | | | | |d]; try reflexivity.
    exfalso. apply (H d). reflexivity.
Qed.

Lemma email_summary_succeeds_iff_witness :
  email_summary (JStr (py "e1"))
  = Raise (AttributeError (py "str") (py "get")).
Proof.
  apply (proj2 (email_summary_succeeds_iff (JStr (py "e1")))).
  intros d. discriminate.
Defined.

(** X9: the projection reads the upstream keys id, subject, date,
    from_attendee and body_markdown only: two records that agree on these
    five have the same summary, or raise the same error. *)
Theorem email_summary_reads_five_fields (d1 d2 : dict) :
  (forall k, In k upstream_fields -> lookup k d1 = lookup k d2) ->
  email_summary (JObj d1) = email_summary (JObj d2).
Proof.
  intros H. rewrite !email_summary_obj. unfold dict_get.
  rewrite (H (py "id")), (H (py "subject")), (H (py "date")),
    (H (py "from_attendee")), (H (py "body_markdown"));
    try reflexivity; unfold upstream_fields; simpl; auto 6.
Qed.

Lemma email_summary_reads_five_fields_witness :
  email_summary (JObj [(py "id", JStr (py "e1")); (py "folders", JArr [])])
  = email_summary (JObj [(py "role", JStr (py "inbox")); (py "id", JStr (py "e1"))]).
Proof.
  apply (email_summary_reads_five_fields
           [(py "id", JStr (py "e1")); (py "folders", JArr [])]
           [(py "role", JStr (py "inbox")); (py "id", JStr (py "e1"))]).
  intros k H. unfold upstream_fields in H. simpl in H.
  repeat (destruct H as [H | H]; [subst k; reflexivity |]).
  contradiction.
Defined.

(** X10: when the wrapper hands [get_emails] a non-empty JSON object (for
    instance an envelope [{"items": [...]}]) instead of a list, the loop
    runs over its keys and the answer is 500 with the attribute error for
    [get] on [str]; the wrapper's upstream calls are all there is. *)
Theorem get_emails_on_object (g : globals) (w : UnipileWrapper)
    (account : pystr) (n : Z) (net : network) (d : dict)
    (log : list request_args) :
  unipile g = Some w ->
  unipile_get_emails w account n net [] = (Ok (Json (JObj d)), log) ->
  d <> [] ->
  get_emails g account n net
  = (HTTPException 500 (py "'str' object has no attribute 'get'"), log).
Proof.
  intros Hw Hcall Hd.
  unfold get_emails, try_except, get_emails_try, bind, unipile_method, lift.
  rewrite Hw, Hcall.
  destruct d as [|[k v] d]; [contradiction |]. reflexivity.
Qed.

Lemma get_emails_on_object_witness :
  get_emails (canned_globals (Json (JObj [(py "items", JArr [sample_record])])))
    (py "a1") 10 (always (answer 200 "OK" (Json JNull)))
  = (HTTPException 500 (py "'str' object has no attribute 'get'"), []).
Proof.
  apply (get_emails_on_object
           (canned_globals (Json (JObj [(py "items", JArr [sample_record])])))
           (canned_wrapper (Json (JObj [(py "items", JArr [sample_record])])))
           (py "a1") 10 (always (answer 200 "OK" (Json JNull)))
           [(py "items", JArr [sample_record])] [] eq_refl eq_refl).
  discriminate.
Defined.

Lemma comprehension_first_failure {A B} (f : A -> result B)
    (good rest : list A) (bad : A) (e : exn) :
  (forall x, In x good -> exists y, f x = Ok y) ->
  f bad = Raise e ->
  comprehension f (good ++ bad :: rest) = Raise e.
Proof.
  intros Hgood Hbad. induction good as [|x good IH]; simpl.
  - rewrite Hbad. reflexivity.
  - destruct (Hgood x (or_introl eq_refl)) as [y Hy]. rewrite Hy. simpl.
    rewrite IH; [reflexivity |]. intros z Hz. apply Hgood. right. exact Hz.
Qed.

(** X11: [get_emails] gives no partial result: when the upstream list has
    a record on which the projection raises, after any number of records
    on which it succeeds, the answer is 500 with the message of that first
    error, and none of the summaries. *)
Theorem get_emails_first_failure (g : globals) (w : UnipileWrapper)
    (account : pystr) (n : Z) (net : network) (good rest : list json)
    (bad : json) (e : exn) (log : list request_args) :
  unipile g = Some w ->
  unipile_get_emails w account n net []
  = (Ok (Json (JArr (good ++ bad :: rest))), log) ->
  forallb well_typed_record good = true ->
  email_summary bad = Raise e ->
  get_emails g account n net = (HTTPException 500 (str_exn e), log).
Proof.
  intros Hw Hcall Hgood Hbad.
  unfold get_emails, try_except, get_emails_try, bind, unipile_method, lift.
  rewrite Hw, Hcall. cbn [json_loads summaries py_iter rbind].
  rewrite (comprehension_first_failure email_summary good rest bad e);
    [reflexivity | | exact Hbad].
  intros r Hr. rewrite forallb_forall in Hgood. specialize (Hgood r Hr).
  destruct r; try discriminate Hgood.
  eexists. apply email_summary_well_typed. exact Hgood.
Qed.

Lemma get_emails_first_failure_witness :
  get_emails (canned_globals (Json (JArr [sample_record; JInt 7; sample_record])))
    (py "a1") 10 (always (answer 200 "OK" (Json JNull)))
  = (HTTPException 500 (py "'int' object has no attribute 'get'"), []).
Proof.
  apply (get_emails_first_failure
           (canned_globals (Json (JArr [sample_record; JInt 7; sample_record])))
           (canned_wrapper (Json (JArr [sample_record; JInt 7; sample_record])))
           (py "a1") 10 (always (answer 200 "OK" (Json JNull)))
           [sample_record] [sample_record] (JInt 7)
           (AttributeError (py "int") (py "get")) []
           eq_refl eq_refl eq_refl eq_refl).
Defined.

(** X12: the projection settles after two applications: the summary of a
    summary is projected to itself. *)
Theorem email_summary_stabilises (r p : json) :
  email_summary r = Ok p ->
  exists p', email_summary p = Ok p' /\ email_summary p' = Ok p'.
Proof.
  intros H. destruct r as [| | | | | |d]; try discriminate H.
  rewrite email_summary_obj in H.
  destruct (py_get _ _ _) as [from|e]; [| discriminate H].
  destruct (py_strip _) as [b|e]; [| discriminate H].
  cbn [rbind] in H. inversion H; subst p.
  eexists. split; reflexivity.
Qed.

Lemma email_summary_stabilises_witness :
  exists p',
    email_summary (JObj sample_summary) = Ok p' /\ email_summary p' = Ok p'.
Proof.
  apply (email_summary_stabilises sample_record (JObj sample_summary)).
  reflexivity.
Defined.

Lemma email_summary_ok_well_typed (r s : json) :
  email_summary r = Ok s -> well_typed_record r = true.
Proof.
  intros H. destruct r as [| | | | | |d]; try discriminate H.
  rewrite email_summary_obj in H.
  unfold well_typed_record. unfold dict_get in H.
  destruct (lookup (py "from_attendee") d) as [[| | | | | |a]|];
    try discriminate H;
    destruct (lookup (py "body_markdown") d) as [[| | | |b| |]|];
    try discriminate H; reflexivity.
Qed.

Lemma comprehension_ok_iff (rs : list json) :
  (exists out, comprehension email_summary rs = Ok out)
  <-> forallb well_typed_record rs = true.
Proof.
  split.
  - intros [out H]. apply comprehension_Forall2 in H.
    induction H as [|r s rs out Hr _ IH]; [reflexivity |].
    simpl. rewrite (email_summary_ok_well_typed r s Hr). exact IH.
  - intros H. apply comprehension_total. intros r Hr.
    rewrite forallb_forall in H. specialize (H r Hr).
    destruct r; try discriminate H.
    eexists. apply email_summary_well_typed. exact H.
Qed.



Lemma comprehension_well_typed (ds : list dict) :
  forallb (fun d => well_typed_record (JObj d)) ds = true ->
  comprehension email_summary (map JObj ds)
  = Ok (map (fun d => JObj (summary_of d)) ds).
Proof.
  induction ds as [|d ds IH]; cbn [map forallb comprehension];
    [reflexivity |].
  intros H. apply andb_true_iff in H. destruct H as [Hd Hds].
  rewrite (email_summary_well_typed d Hd), (IH Hds). reflexivity.
Qed.



(** ** [strip] *)

Lemma trimmed_lstrip (s : pystr) : trimmed s = true -> lstrip s = s.
Proof.
  unfold trimmed. intros H. apply andb_true_iff in H. destruct H as [H _].
  destruct s as [|c s]; [reflexivity |]. simpl.
  apply negb_true_iff in H. rewrite H. reflexivity.
Qed.

Lemma trimmed_rstrip (s : pystr) : trimmed s = true -> rstrip s = s.
Proof.
  unfold trimmed, rstrip. intros H. apply andb_true_iff in H.
  destruct H as [_ H].
  destruct (rev s) as [|c t] eqn:E.
  - simpl. rewrite <- (rev_involutive s), E. reflexivity.
  - simpl. apply negb_true_iff in H. rewrite H.
    rewrite <- E. apply rev_involutive.
Qed.

(** X14: [strip] leaves a string unchanged exactly when the string has no
    whitespace at either end; so stripping twice is stripping once, and
    the body of a summary needs no further trimming. *)
Theorem strip_fixed_point (s : pystr) :
  (strip s = s <-> trimmed s = true) /\ strip (strip s) = strip s.
Proof.
  assert (H : forall t, trimmed t = true -> strip t = t).
  { intros t Ht. unfold strip. rewrite (trimmed_lstrip t Ht).
    apply trimmed_rstrip. exact Ht. }
  split.
  - split; [| apply H].
    intros E. rewrite <- E. apply strip_trimmed.
  - apply H. apply strip_trimmed.
Qed.

(** ** Startup and the two posting handlers *)

(** X15: after a successful startup the posting handlers are configured:
    the URL they post to is [https://<UNIPILE_DSN>/api/v1/emails] with the
    non-empty DSN of the environment (never the text [None]), and the
    [X-API-KEY] header carries the non-empty key of the environment. *)
Theorem startup_configures_posts
    (new : option pystr -> option pystr -> UnipileWrapper)
    (env : environ) (g : globals)
    (built : list (option pystr * option pystr)) :
  lifespan new env (module_globals env) = Ok (g, built) ->
  exists dsn key,
    dsn <> [] /\ key <> []
    /\ env (py "UNIPILE_DSN") = Some dsn
    /\ env (py "UNIPILE_API_KEY") = Some key
    /\ (forall payload,
          url (send_email_post g payload)
          = py "https://" ++ dsn ++ py "/api/v1/emails"
          /\ lookup_header (py "X-API-KEY") (headers (send_email_post g payload))
             = Some (Some key))
    /\ (forall request reply_to attachment,
          url (reply_email_post g request reply_to attachment)
          = py "https://" ++ dsn ++ py "/api/v1/emails"
          /\ lookup_header (py "X-API-KEY")
               (headers (reply_email_post g request reply_to attachment))
             = Some (Some key)).
Proof.
  unfold lifespan.
  destruct (env (py "UNIPILE_DSN")) as [[|c dsn]|] eqn:Hd;
    try discriminate;
    destruct (env (py "UNIPILE_API_KEY")) as [[|c' key]|] eqn:Hk;
    try discriminate.
  cbn [py_not orb]. intros H. inversion H; subst g built.
  exists (c :: dsn), (c' :: key).
  split; [discriminate |]. split; [discriminate |].
  split; [reflexivity |]. split; [reflexivity |].
  unfold send_email_post, reply_email_post, emails_url, module_globals.
  cbn [UNIPILE_DSN UNIPILE_API_KEY url headers format_opt].
  rewrite Hd, Hk. split; intros; split; reflexivity.
Qed.

Lemma startup_configures_posts_witness :
  exists dsn key,
    dsn <> [] /\ key <> []
    /\ sample_env (Some (py "h")) (Some (py "k")) (py "UNIPILE_DSN") = Some dsn
    /\ sample_env (Some (py "h")) (Some (py "k")) (py "UNIPILE_API_KEY") = Some key
    /\ (forall payload,
          url (send_email_post
                 {| UNIPILE_DSN := Some (py "h"); UNIPILE_API_KEY := Some (py "k");
                    unipile := Some (canned_wrapper (Json JNull)) |} payload)
          = py "https://" ++ dsn ++ py "/api/v1/emails"
          /\ lookup_header (py "X-API-KEY")
               (headers (send_email_post
                 {| UNIPILE_DSN := Some (py "h"); UNIPILE_API_KEY := Some (py "k");
                    unipile := Some (canned_wrapper (Json JNull)) |} payload))
             = Some (Some key))
    /\ (forall request reply_to attachment,
          url (reply_email_post
                 {| UNIPILE_DSN := Some (py "h"); UNIPILE_API_KEY := Some (py "k");
                    unipile := Some (canned_wrapper (Json JNull)) |}
                 request reply_to attachment)
          = py "https://" ++ dsn ++ py "/api/v1/emails"
          /\ lookup_header (py "X-API-KEY")
               (headers (reply_email_post
                 {| UNIPILE_DSN := Some (py "h"); UNIPILE_API_KEY := Some (py "k");
                    unipile := Some (canned_wrapper (Json JNull)) |}
                 request reply_to attachment))
             = Some (Some key)).
Proof.
  apply (startup_configures_posts (fun _ _ => canned_wrapper (Json JNull))
           (sample_env (Some (py "h")) (Some (py "k")))
           {| UNIPILE_DSN := Some (py "h"); UNIPILE_API_KEY := Some (py "k");
              unipile := Some (canned_wrapper (Json JNull)) |}
           [(Some (py "h"), Some (py "k"))]).
  reflexivity.
Defined.

(** ** The JSON encoding of the recipients *)

(** X16: [json.dumps] yields printable ASCII only, whatever characters the
    value holds; in particular the [to] field of the reply form is
    printable ASCII for every list of recipients. *)
Theorem json_dumps_is_ascii (v : json) :
  ascii_floats v = true -> forallb printable (json_dumps v) = true.
Proof.
  induction v as [|b|z|r|s|l IH|d IH] using json_nested_ind; intros H.
  - reflexivity.
  - destruct b; reflexivity.
  - apply str_int_printable.
  - cbn [json_dumps]. unfold float_text.
    repeat (destruct (pystr_eqb r _); [reflexivity |]). exact H.
  - apply encode_basestring_ascii_printable.
  - cbn [json_dumps]. cbn [ascii_floats] in H.
    rewrite !forallb_app. apply andb_true_iff. split; [reflexivity |].
    apply andb_true_iff. split; [| reflexivity].
    induction IH as [|x l Hx _ IHl]; [reflexivity |].
    cbn [forallb] in H. apply andb_true_iff in H. destruct H as [H1 H2].
    destruct l as [|y l]; [apply Hx; exact H1 |].
    rewrite !forallb_app. rewrite (Hx H1). cbn [andb].
    apply andb_true_iff. split; [reflexivity |]. apply IHl. exact H2.
  - cbn [json_dumps]. cbn [ascii_floats] in H.
    rewrite !forallb_app. apply andb_true_iff. split; [reflexivity |].
    apply andb_true_iff. split; [| reflexivity].
    induction IH as [|[k x] d Hx _ IHd]; [reflexivity |].
    cbn [forallb snd] in H. apply andb_true_iff in H. destruct H as [H1 H2].
    cbn [snd] in Hx.
    destruct d as [|y d].
    + rewrite !forallb_app, encode_basestring_ascii_printable, (Hx H1).
      reflexivity.
    + rewrite !forallb_app, encode_basestring_ascii_printable, (Hx H1).
      cbn [andb]. apply andb_true_iff. split; [reflexivity |].
      apply andb_true_iff. split; [reflexivity |]. apply IHd. exact H2.
Qed.

Lemma json_dumps_is_ascii_witness :
  forallb printable
    (json_dumps (JArr [JStr [0x4A; 0xFC; 0x72; 0x67; 0x40; 0x1F600]%N; JInt (-3)]))
  = true.
Proof.
  apply (json_dumps_is_ascii
           (JArr [JStr [0x4A; 0xFC; 0x72; 0x67; 0x40; 0x1F600]%N; JInt (-3)])).
  reflexivity.
Defined.

(** ** The detail of an upstream HTTP error *)

(** X18: when the upstream call of [reply_email] or [send_email] is
    answered with a 4xx (5xx) status, the detail handed to the caller is
    [<status> Client Error: <reason> for url: <url>] (resp. [Server
    Error]), with the reason and the URL of the upstream response. *)
Theorem upstream_error_detail (g : globals) (net : network) (r : Response) :
  400 <= status r < 600 ->
  let kind := if status r <? 500 then py "Client Error" else py "Server Error" in
  let detail :=
    str_int (status r) ++ py " " ++ kind ++ py ": " ++ reason r
    ++ py " for url: " ++ response_url r in
  (forall request reply_to attachment,
      net (reply_email_post g request reply_to attachment) = Responds r ->
      fst (reply_email g request reply_to attachment net)
      = HTTPException 500 detail)
  /\ (forall payload,
        net (send_email_post g payload) = Responds r ->
        fst (send_email g (Json payload) net) = HTTPException 500 detail).
Proof.
  intros Hst. cbv zeta.
  assert (Hr : forall log,
             raise_for_status r net log
             = (Raise (HTTPError (status r)
                         (if status r <? 500 then py "Client Error"
                          else py "Server Error")
                         (reason r) (response_url r)), log)).
  { intros log. unfold raise_for_status.
    destruct (Z.ltb_spec (status r) 500) as [Hlt | Hge].
    - replace (400 <=? status r) with true by (symmetry; apply Z.leb_le; lia).
      reflexivity.
    - replace (status r <? 600) with true by (symmetry; apply Z.ltb_lt; lia).
      replace (500 <=? status r) with true by (symmetry; apply Z.leb_le; lia).
      rewrite andb_false_r. reflexivity. }
  split.
  - intros request reply_to attachment Hnet.
    rewrite reply_email_run. cbv zeta. rewrite Hnet, Hr. reflexivity.
  - intros payload Hnet.
    rewrite send_email_run. cbv zeta. rewrite Hnet, Hr. reflexivity.
Qed.

Lemma upstream_error_detail_witness :
  fst (send_email sample_globals (Json (JObj sample_payload))
         (always (answer 401 "Unauthorized" (NotJson []))))
  = HTTPException 500
      (py "401 Client Error: Unauthorized for url: https://api1.unipile.com:13111/api/v1/emails").
Proof.
  refine (proj2 (upstream_error_detail sample_globals
                   (always (answer 401 "Unauthorized" (NotJson [])))
                   (answer 401 "Unauthorized" (NotJson [])) _)
            (JObj sample_payload) _).
  - simpl; lia.
  - reflexivity.
Defined.
